(** * Smart commute assistant: traffic sampling, departure calculation and
      the daily notification state machine

    A shallow embedding of [traffic_monitor.py], [config.py] and the
    decision logic of [smart_commute.py], followed by the properties of the
    specification that were checked against it.

    Conventions of the embedding.
    - Python exceptions are values of [exn]; a computation that may raise
      has type [res A].
    - The body of the directions response is a JSON value ([json]); the
      subscripts, iterations and sums the code performs on it follow
      Python's dynamic typing, so a response of any shape has a result.
    - A naive [datetime] is a number of microseconds; a [timedelta] too.
    - Python floats ([traffic_ratio], the minutes until departure, the
      threshold) are idealised as exact rationals [Q]; the literal [1.1]
      is the rational 11/10. *)

From Stdlib Require Import ZArith QArith Qround Lia.
From stdpp Require Import gmap strings list pretty.

Set Warnings "-register-all".

Open Scope Z_scope.

(** ** Python values, exceptions and the operations the code uses *)

Module Py.

Inductive exn :=
| KeyError
| IndexError
| TypeError
| AttributeError
| ZeroDivisionError
| ValueError
| RequestException.

Inductive res (A : Type) :=
| Ok (a : A)
| Raise (e : exn).
Arguments Ok {A} a.
Arguments Raise {A} e.

Definition bind {A B} (r : res A) (k : A -> res B) : res B :=
  match r with
  | Ok a => k a
  | Raise e => Raise e
  end.

(** What [json.loads] can produce; numeric leaves are integers, as the
    directions provider sends them. *)
Inductive json :=
| JNull
| JBool (b : bool)
| JInt (z : Z)
| JStr (s : string)
| JList (l : list json)
| JDict (m : gmap string json).

Definition chars (s : string) : list json :=
  (fun c => JStr (String c EmptyString)) <$> String.list_ascii_of_string s.

(** [v[k]] with a string key. *)
Definition getitem_str (v : json) (k : string) : res json :=
  match v with
  | JDict m => match m !! k with Some x => Ok x | None => Raise KeyError end
  | _ => Raise TypeError
  end.

Definition index_list {A} (l : list A) (i : Z) : res A :=
  let n := Z.of_nat (length l) in
  let j := if i <? 0 then i + n else i in
  if (0 <=? j) && (j <? n)
  then match l !! Z.to_nat j with Some x => Ok x | None => Raise IndexError end
  else Raise IndexError.

(** [v[i]] with an integer index; negative indices count from the end.
    The keys of a JSON object are strings, so an integer key is absent. *)
Definition getitem_int (v : json) (i : Z) : res json :=
  match v with
  | JList l => index_list l i
  | JStr s => index_list (chars s) i
  | JDict _ => Raise KeyError
  | _ => Raise TypeError
  end.

(** [iter(v)]: the items a [for] visits. *)
Definition iter (v : json) : res (list json) :=
  match v with
  | JList l => Ok l
  | JStr s => Ok (chars s)
  | JDict m => Ok ((fun kv => JStr kv.1) <$> map_to_list m)
  | _ => Raise TypeError
  end.

(** [v[:-1]], as the items the enclosing [for] visits.  A dict does not
    accept a slice. *)
Definition slice_init (v : json) : res (list json) :=
  match v with
  | JList l => Ok (removelast l)
  | JStr s => Ok (removelast (chars s))
  | _ => Raise TypeError
  end.

(** [v.get(k, d)] where the default [d] is an expression: the attribute
    is looked up first, then the default is evaluated, then the call is
    made. *)
Definition dict_get (v : json) (k : string) (d : res json) : res json :=
  match v with
  | JDict m =>
      bind d (fun dv => Ok (default dv (m !! k)))
  | _ => Raise AttributeError
  end.

(** The right operand of [int + v] inside [sum]. *)
Definition as_int (v : json) : res Z :=
  match v with
  | JInt z => Ok z
  | JBool b => Ok (if b then 1 else 0)
  | _ => Raise TypeError
  end.

(** [sum(f(x) for x in items)]: each item is evaluated and added before the
    next one is looked at. *)
Fixpoint sum_gen (f : json -> res json) (items : list json) (acc : Z) : res Z :=
  match items with
  | [] => Ok acc
  | x :: rest =>
      bind (f x) (fun v =>
      bind (as_int v) (fun n =>
      sum_gen f rest (acc + n)))
  end.

(** [v == "..."] for a string literal. *)
Definition eq_str (v : json) (s : string) : bool :=
  match v with
  | JStr s' => String.eqb s' s
  | _ => false
  end.

(** [k in v] for a dict [v]. *)
Definition has_key (v : json) (k : string) : bool :=
  match v with
  | JDict m => bool_decide (is_Some (m !! k))
  | _ => false
  end.

(** [try: body except RequestException: return None]. *)
Definition except_request {A} (body : res (option A)) : res (option A) :=
  match body with
  | Raise RequestException => Ok None
  | r => r
  end.

(** [int(q)] on a float: truncation toward zero. *)
Definition int_of (q : Q) : Z := Z.quot (Qnum q) (Z.pos (Qden q)).

End Py.

Export Py.

Notation "'let!' x ':=' c1 'in' c2" := (Py.bind c1 (fun x => c2))
  (at level 10, x pattern, c1 at level 100, c2 at level 200).

(** ** Naive datetimes and timedeltas, in microseconds *)

Module Datetime.

Definition datetime := Z.
Definition timedelta := Z.

Definition us_per_second : Z := 1000000.
Definition us_per_minute : Z := 60 * us_per_second.
Definition us_per_hour : Z := 60 * us_per_minute.
Definition us_per_day : Z := 24 * us_per_hour.

(** The fields [now.hour], [now.minute], [now.second], [now.microsecond]
    and the date (as the instant of its midnight). *)
Definition hour (t : datetime) : Z := (t mod us_per_day) / us_per_hour.
Definition minute (t : datetime) : Z := (t mod us_per_hour) / us_per_minute.
Definition second (t : datetime) : Z := (t mod us_per_minute) / us_per_second.
Definition microsecond (t : datetime) : Z := t mod us_per_second.
Definition midnight (t : datetime) : datetime := t - t mod us_per_day.

Definition in_range (lo x hi : Z) : bool := (lo <=? x) && (x <? hi).

(** [t.replace(hour=h, minute=m, second=s, microsecond=us)]; a field out
    of range is a [ValueError]. *)
Definition replace (t : datetime) (h m s us : Z) : res datetime :=
  if in_range 0 h 24 && in_range 0 m 60 && in_range 0 s 60
     && in_range 0 us us_per_second
  then Ok (midnight t + h * us_per_hour + m * us_per_minute
           + s * us_per_second + us)
  else Raise ValueError.

(** Rounding of a float to the nearest integer, ties to even, as the
    [timedelta] constructor does for a fractional number of microseconds. *)
Definition round_half_even (q : Q) : Z :=
  let f := Qfloor q in
  match Qcompare (q - inject_Z f) (1 # 2) with
  | Lt => f
  | Gt => f + 1
  | Eq => if Z.even f then f else f + 1
  end.

(** [timedelta(minutes=q)] and [timedelta(days=n)]. *)
Definition timedelta_minutes (q : Q) : timedelta :=
  round_half_even (q * inject_Z us_per_minute).
Definition timedelta_days (n : Z) : timedelta := n * us_per_day.

(** [td.total_seconds()]. *)
Definition total_seconds (td : timedelta) : Q :=
  (inject_Z td / inject_Z us_per_second)%Q.

End Datetime.

Export Datetime.

(** ** traffic_monitor.py *)

Module TrafficMonitor.

(** One entry of the ["waypoints"] list of the parsed route. *)
Record stop := {
  address : string;
  duration_to_next : json;
  distance_to_next : json
}.

(** The dict [_parse_route_data] returns.  Its ["distance_text"] entry, a
    rendering of [total_distance], is not kept. *)
Record traffic_data := {
  total_duration : Z;
  total_duration_traffic : Z;
  total_distance : Z;
  summary : json;
  waypoints : list stop;
  start_address : json;
  end_address : json;
  traffic_ratio : Q
}.

(** What [requests.get], [raise_for_status] and [response.json()] leave:
    a [RequestException], or the decoded body. *)
Inductive http_outcome :=
| RequestFailed
| Body (data : json).

(** The three severity texts of [analyze_traffic]. *)
Inductive status := Light | Moderate | Heavy.

Definition status_text (s : status) : string :=
  match s with
  | Heavy => "Heavy traffic"
  | Moderate => "Moderate traffic"
  | Light => "Light traffic"
  end.

(** [if waypoints:] on an [Optional[List[str]]]. *)
Definition truthy (waypoints : option (list string)) : bool :=
  match waypoints with
  | Some (_ :: _) => true
  | _ => false
  end.

(** [a / b] on integers. *)
Definition truediv (a b : Z) : res Q :=
  if b =? 0 then Raise ZeroDivisionError
  else Ok (Qred (inject_Z a / inject_Z b)).

Definition plain_duration (leg : json) : res json :=
  let! d := getitem_str leg "duration" in getitem_str d "value".

(** [leg.get("duration_in_traffic", leg["duration"])["value"]]. *)
Definition traffic_duration (leg : json) : res json :=
  let! d := dict_get leg "duration_in_traffic" (getitem_str leg "duration") in
  getitem_str d "value".

Definition leg_distance (leg : json) : res json :=
  let! d := getitem_str leg "distance" in getitem_str d "value".

Definition sum_over (legs : json) (f : json -> res json) : res Z :=
  let! items := iter legs in sum_gen f items 0.

(** The loop [for i, leg in enumerate(legs[:-1])], from index [i] on. *)
Fixpoint build_stops (wps : list string) (i : nat) (legs : list json)
  : res (list stop) :=
  match legs with
  | [] => Ok []
  | leg :: rest =>
      let addr := if decide (i < length wps)%nat
                  then default "Unknown" (wps !! i) else "Unknown" in
      let! d := plain_duration leg in
      let! m := leg_distance leg in
      let! stops := build_stops wps (S i) rest in
      Ok ({| address := addr; duration_to_next := d; distance_to_next := m |}
            :: stops)
  end.

Definition _parse_route_data (data : json) (wps : option (list string))
  : res traffic_data :=
  let! routes := getitem_str data "routes" in
  let! route := getitem_int routes 0 in
  let! legs := getitem_str route "legs" in
  let! total := sum_over legs plain_duration in
  let! total_traffic := sum_over legs traffic_duration in
  let! distance := sum_over legs leg_distance in
  let! stops :=
    (if truthy wps
     then let! init := slice_init legs in build_stops (default [] wps) 0 init
     else Ok []) in
  let! summ := getitem_str route "summary" in
  let! first := getitem_int legs 0 in
  let! start := getitem_str first "start_address" in
  let! last := getitem_int legs (-1) in
  let! stop_ := getitem_str last "end_address" in
  let! ratio := truediv total_traffic total in
  Ok {| total_duration := total;
        total_duration_traffic := total_traffic;
        total_distance := distance;
        summary := summ;
        waypoints := stops;
        start_address := start;
        end_address := stop_;
        traffic_ratio := ratio |}.

Definition get_route_with_traffic (response : http_outcome)
    (wps : option (list string)) : res (option traffic_data) :=
  except_request
    (match response with
     | RequestFailed => Raise RequestException
     | Body data =>
         let! st := getitem_str data "status" in
         if eq_str st "OK"
         then let! td := _parse_route_data data wps in Ok (Some td)
         else Ok None
     end).

(** [calculate_departure_time]; [now1] and [now2] are the two readings of
    [datetime.now()], in the order the function takes them. *)
Definition calculate_departure_time (td : traffic_data)
    (arrival_time : Z * Z) (buffer_minutes : Z) (now1 now2 : datetime)
  : res (datetime * Z) :=
  let '(arrival_hour, arrival_minute) := arrival_time in
  let! today := replace now1 arrival_hour arrival_minute 0 0 in
  let today := if today <? now2 then today + timedelta_days 1 else today in
  let travel_seconds := total_duration_traffic td in
  let travel_minutes :=
    (inject_Z travel_seconds / 60 + inject_Z buffer_minutes)%Q in
  let departure_time := today - timedelta_minutes travel_minutes in
  Ok (departure_time, int_of travel_minutes).

Definition moderate_ratio : Q := 11 # 10.

Definition analyze_traffic (td : traffic_data) (threshold : Q) : status :=
  let ratio := traffic_ratio td in
  if Qle_bool threshold ratio then Heavy
  else if Qle_bool moderate_ratio ratio then Moderate
  else Light.

(** [data["routes"][0]["legs"]], the legs [_parse_route_data] works on. *)
Definition route_legs (data : json) : res json :=
  let! routes := getitem_str data "routes" in
  let! route := getitem_int routes 0 in
  getitem_str route "legs".

(** The order light < moderate < heavy. *)
Definition status_rank (s : status) : nat :=
  match s with
  | Light => 0
  | Moderate => 1
  | Heavy => 2
  end.

Definition status_le (a b : status) : Prop :=
  (status_rank a <= status_rank b)%nat.

End TrafficMonitor.

(** ** config.py *)

Module Config.

(** [check_time] and [desired_arrival_time] are "HH:MM" texts in the
    source, read with [map(int, s.split(":"))] wherever they are used; the
    record keeps the two integers. *)
Record CommuteConfig := {
  work_address : string;
  home_address : string;
  check_time : Z * Z;
  desired_arrival_time : Z * Z;
  buffer_minutes : Z;
  heavy_traffic_threshold : Q;
  waypoints : list string
}.

Definition get_full_route (cfg : CommuteConfig) : list string :=
  [work_address cfg] ++ waypoints cfg ++ [home_address cfg].

End Config.

(** ** smart_commute.py *)

Module SmartCommute.

Import TrafficMonitor Config.

(** The three messages handed to the chat transport, with the arguments
    the assistant passes. *)
Inductive notification :=
| DepartureAlert (travel_time : string) (route_summary : json)
    (traffic_status : status) (stops : list stop)
| EarlyWarning (travel_time : string) (minutes_early : Z)
    (traffic_status : status)
| LateWarning (travel_time : string).

(** A message handed to [send_notification], with the boolean it returned
    (which no caller looks at). *)
Record emission := {
  sent : notification;
  delivered : bool
}.

(** The two state fields of [SmartCommuteAssistant]. *)
Record state := {
  last_notification_time : option datetime;
  notification_sent_today : bool
}.

(** What one run of [check_traffic_and_notify] reads from outside: the
    clock at its first line, the outcome of the request, the two clock
    readings inside [calculate_departure_time], and whether the chat
    transport accepts the message. *)
Record reading := {
  current_time : datetime;
  response : http_outcome;
  calc_now1 : datetime;
  calc_now2 : datetime;
  delivery_ok : bool
}.

Definition _format_duration (seconds : Z) : string :=
  let minutes := int_of (inject_Z seconds / 60)%Q in
  if minutes <? 60 then pretty minutes +:+ " min"
  else
    let hours := minutes / 60 in
    let mins := minutes mod 60 in
    pretty hours +:+ "h " +:+ pretty mins +:+ "min".

(** [send_notification]: the transport error is caught inside and turned
    into [False]. *)
Definition send_notification (env : reading) (n : notification) : emission :=
  {| sent := n; delivered := delivery_ok env |}.

Definition Qlt_bool (a b : Q) : bool := negb (Qle_bool b a).

(** [(departure_time - current_time).total_seconds() / 60]. *)
Definition minutes_until (departure_time current_time : datetime) : Q :=
  (total_seconds (departure_time - current_time)%Z / 60)%Q.

(** The chain of [if]/[elif] that ends [check_traffic_and_notify]. *)
Definition send_by_timing (cfg : CommuteConfig) (st : state) (env : reading)
    (td : traffic_data) (traffic_status : status) (travel_time_str : string)
    (time_until_departure : Q) : state * option emission :=
  if Qle_bool 0 time_until_departure && Qle_bool time_until_departure 5
     && negb (notification_sent_today st)
  then
    ({| last_notification_time := Some (current_time env);
        notification_sent_today := true |},
     Some (send_notification env
             (DepartureAlert travel_time_str (summary td) traffic_status
                (TrafficMonitor.waypoints td))))
  else if Qle_bool (heavy_traffic_threshold cfg) (traffic_ratio td)
          && (Qlt_bool 5 time_until_departure
              && Qle_bool time_until_departure 20)
          && negb (notification_sent_today st)
  then
    (st,
     Some (send_notification env
             (EarlyWarning travel_time_str (int_of time_until_departure)
                traffic_status)))
  else if Qlt_bool 30 time_until_departure then (st, None)
  else if Qlt_bool time_until_departure 0 then
    if negb (notification_sent_today st)
    then
      ({| last_notification_time := last_notification_time st;
          notification_sent_today := true |},
       Some (send_notification env (LateWarning travel_time_str)))
    else (st, None)
  else (st, None).

(** [route[1:-1] if len(route) > 2 else None]. *)
Definition inner_stops (route : list string) : option (list string) :=
  if (2 <? length route)%nat then Some (removelast (tail route)) else None.

Definition check_traffic_and_notify (cfg : CommuteConfig) (st : state)
    (env : reading) : res (state * option emission) :=
  let route := get_full_route cfg in
  let wps := inner_stops route in
  let! traffic := get_route_with_traffic (response env) wps in
  match traffic with
  | None => Ok (st, None)
  | Some td =>
      let! (departure_time, travel_minutes) :=
        calculate_departure_time td (desired_arrival_time cfg)
          (buffer_minutes cfg) (calc_now1 env) (calc_now2 env) in
      let traffic_status := analyze_traffic td (heavy_traffic_threshold cfg) in
      let travel_time_str := _format_duration (total_duration_traffic td) in
      let time_until_departure :=
        minutes_until departure_time (current_time env) in
      Ok (send_by_timing cfg st env td traffic_status travel_time_str
            time_until_departure)
  end.

(** The window test of [_check_if_in_monitoring_window]:
    [check_time <= now <= end_time], the two bounds built from [now] with
    [replace(hour=.., minute=.., second=0)], which keeps the microsecond. *)
Definition in_window (cfg : CommuteConfig) (now : datetime) : res bool :=
  let '(check_hour, check_minute) := check_time cfg in
  let '(arrival_hour, arrival_minute) := desired_arrival_time cfg in
  let! check_time := replace now check_hour check_minute 0 (microsecond now) in
  let! arrival_time :=
    replace now arrival_hour arrival_minute 0 (microsecond now) in
  let end_time := arrival_time + 30 * us_per_minute in
  Ok ((check_time <=? now) && (now <=? end_time)).

(** The reset at the head of [_check_if_in_monitoring_window]. *)
Definition midnight_reset (st : state) (now : datetime) : state :=
  if (hour now =? 0) && (minute now <? 5)
  then {| last_notification_time := last_notification_time st;
          notification_sent_today := false |}
  else st.

(** [_check_if_in_monitoring_window], with [now] its own clock reading. *)
Definition _check_if_in_monitoring_window (cfg : CommuteConfig) (st : state)
    (now : datetime) (env : reading) : res (state * option emission) :=
  let st := midnight_reset st now in
  let! inside := in_window cfg now in
  if inside then check_traffic_and_notify cfg st env else Ok (st, None).

(** The jobs the scheduler runs: the daily check (and the initial one of
    [start]) calls [check_traffic_and_notify] directly; the five-minute job
    goes through [_check_if_in_monitoring_window]. *)
Inductive tick :=
| Daily (env : reading)
| Poll (now : datetime) (env : reading).

Definition step (cfg : CommuteConfig) (st : state) (tk : tick)
  : res (state * option emission) :=
  match tk with
  | Daily env => check_traffic_and_notify cfg st env
  | Poll now env => _check_if_in_monitoring_window cfg st now env
  end.

(** The scheduling loop over a finite run of ticks.  An exception leaves
    [run_pending] and [start] (which only catches [KeyboardInterrupt]) and
    ends the process: the ticks after it do not run. *)
Fixpoint run (cfg : CommuteConfig) (st : state) (ticks : list tick)
  : list emission * res state :=
  match ticks with
  | [] => ([], Ok st)
  | tk :: rest =>
      match step cfg st tk with
      | Raise e => ([], Raise e)
      | Ok (st', em) =>
          let '(ems, final) := run cfg st' rest in
          (option_list em ++ ems, final)
      end
  end.

(** The tick resets the daily flag. *)
Definition resets (tk : tick) : bool :=
  match tk with
  | Daily _ => false
  | Poll now _ => (hour now =? 0) && (minute now <? 5)
  end.

Definition is_departure_alert (n : notification) : bool :=
  match n with DepartureAlert _ _ _ _ => true | _ => false end.
Definition is_early_warning (n : notification) : bool :=
  match n with EarlyWarning _ _ _ => true | _ => false end.
Definition is_late_warning (n : notification) : bool :=
  match n with LateWarning _ => true | _ => false end.

Definition is_departure_or_late (n : notification) : bool :=
  is_departure_alert n || is_late_warning n.

(** The tick handed a message of the given kind to the transport. *)
Definition emitted (kind : notification -> bool) (em : option emission) : bool :=
  match em with
  | Some e => kind (sent e)
  | None => false
  end.

(** Number of DepartureAlert and LateWarning messages in a trace. *)
Definition count_departure_or_late (ems : list emission) : nat :=
  length (filter (fun e => is_departure_or_late (sent e) = true) ems).

(** The reading with which the tick calls [check_traffic_and_notify], if
    it does. *)
Definition admitted (cfg : CommuteConfig) (tk : tick) : option reading :=
  match tk with
  | Daily env => Some env
  | Poll now env =>
      match in_window cfg now with
      | Ok true => Some env
      | _ => None
      end
  end.

(** The same reading with another answer of the transport. *)
Definition with_delivery (env : reading) (ok : bool) : reading :=
  {| current_time := current_time env;
     response := response env;
     calc_now1 := calc_now1 env;
     calc_now2 := calc_now2 env;
     delivery_ok := ok |}.

(** The reading is one of heavy traffic with the departure more than 5
    and at most 20 minutes away. *)
Definition early_window (cfg : CommuteConfig) (env : reading) : Prop :=
  exists td dep tm,
    get_route_with_traffic (response env) (inner_stops (get_full_route cfg))
    = Ok (Some td) /\
    calculate_departure_time td (desired_arrival_time cfg)
      (buffer_minutes cfg) (calc_now1 env) (calc_now2 env) = Ok (dep, tm) /\
    (heavy_traffic_threshold cfg <= traffic_ratio td)%Q /\
    (5 < minutes_until dep (current_time env) <= 20)%Q.

End SmartCommute.

(** ** The departure calculator as the specification words it *)

Module Spec.

(** The desired time of day on the calendar date of [now], one day later
    when that instant is strictly before [now]. *)
Definition targetArrival (now : datetime) (h m : Z) : datetime :=
  let resolved := midnight now + h * us_per_hour + m * us_per_minute in
  if resolved <? now then resolved + us_per_day else resolved.

(** [ceil(duration_with_traffic_seconds / 60) + bufferMinutes]. *)
Definition travelMinutes (duration_with_traffic_seconds bufferMinutes : Z) : Z :=
  Qceiling (inject_Z duration_with_traffic_seconds / 60)%Q + bufferMinutes.

(** [targetArrivalTimestamp - travelMinutes]. *)
Definition departureTimestamp (target : datetime) (minutes : Z) : datetime :=
  target - minutes * us_per_minute.

(** [recommend]: the departure timestamp and the travel minutes. *)
Definition recommend (duration_with_traffic_seconds : Z) (desiredArrival : Z * Z)
    (bufferMinutes : Z) (now : datetime) : datetime * Z :=
  let target := targetArrival now desiredArrival.1 desiredArrival.2 in
  let minutes := travelMinutes duration_with_traffic_seconds bufferMinutes in
  (departureTimestamp target minutes, minutes).

(** Every waypoint has its entry among the stops of a route of [k] legs:
    with its own address where a leg ends at it, with the marker where the
    waypoint lies beyond the legs. *)
Definition reports_every_waypoint (wps : list string) (k : nat)
    (stops : list TrafficMonitor.stop) : Prop :=
  forall i a,
    wps !! i = Some a ->
    exists s,
      stops !! i = Some s /\
      TrafficMonitor.address s
      = if decide (i < k - 1)%nat then a else "Unknown".

(** The delivery policy the specification commits to: a DepartureAlert or
    LateWarning whose delivery failed leaves the daily flag clear. *)
Definition state_kept_on_failed_delivery (cfg : Config.CommuteConfig)
    (st : SmartCommute.state) (env : SmartCommute.reading) : Prop :=
  forall st' e,
    SmartCommute.check_traffic_and_notify cfg st env = Ok (st', Some e) ->
    SmartCommute.is_departure_or_late (SmartCommute.sent e) = true ->
    SmartCommute.delivered e = false ->
    SmartCommute.notification_sent_today st' = false.

End Spec.

(** ** Concrete responses, configurations and readings *)

Module Scenario.

Import TrafficMonitor Config SmartCommute.

Definition value (n : Z) : json := JDict {[ "value" := JInt n ]}.

(** A leg without the ["duration_in_traffic"] entry. *)
Definition plain_leg (seconds meters : Z) : json :=
  JDict (<["duration" := value seconds]>
        (<["distance" := value meters]>
        (<["start_address" := JStr "Work"]>
         {[ "end_address" := JStr "Home" ]}))).

Definition leg (seconds in_traffic meters : Z) : json :=
  JDict (<["duration" := value seconds]>
        (<["duration_in_traffic" := value in_traffic]>
        (<["distance" := value meters]>
        (<["start_address" := JStr "Work"]>
         {[ "end_address" := JStr "Home" ]})))).

Definition ok_body (legs : list json) : json :=
  JDict (<["status" := JStr "OK"]>
         {[ "routes" :=
              JList [JDict (<["summary" := JStr "A1"]>
                            {[ "legs" := JList legs ]})] ]}).

(** Status OK and no route. *)
Definition empty_routes : json :=
  JDict (<["status" := JStr "OK"]> {[ "routes" := JList [] ]}).

(** Origin and destination coincide: one leg of zero seconds and metres. *)
Definition zero_duration : json := ok_body [plain_leg 0 0].

Definition denied : json :=
  JDict (<["status" := JStr "REQUEST_DENIED"]>
         {[ "error_message" := JStr "The provided API key is invalid." ]}).

(** A route of two legs, and one of four. *)
Definition two_legs : json :=
  ok_body [plain_leg 600 5000; plain_leg 900 7000].
Definition four_legs : json :=
  ok_body [plain_leg 600 5000; plain_leg 900 7000; plain_leg 300 2000;
           plain_leg 120 1000].

(** What [_parse_route_data] makes of [four_legs] with two waypoints. *)
Definition errands : list string := ["Bakery"; "School"].

Definition four_legs_data : traffic_data := {|
  total_duration := 1920;
  total_duration_traffic := 1920;
  total_distance := 15000;
  summary := JStr "A1";
  TrafficMonitor.waypoints :=
    [ {| address := "Bakery"; duration_to_next := JInt 600;
         distance_to_next := JInt 5000 |};
      {| address := "School"; duration_to_next := JInt 900;
         distance_to_next := JInt 7000 |};
      {| address := "Unknown"; duration_to_next := JInt 300;
         distance_to_next := JInt 2000 |} ];
  start_address := JStr "Work";
  end_address := JStr "Home";
  traffic_ratio := 1
|}.

(** What [_parse_route_data] makes of [two_legs] without waypoints. *)
Definition two_legs_data : traffic_data := {|
  total_duration := 1500;
  total_duration_traffic := 1500;
  total_distance := 12000;
  summary := JStr "A1";
  TrafficMonitor.waypoints := [];
  start_address := JStr "Work";
  end_address := JStr "Home";
  traffic_ratio := 1
|}.

(** A clock reading on day 0. *)
Definition at_ (h m : Z) : datetime := h * us_per_hour + m * us_per_minute.

Definition cfg : CommuteConfig := {|
  work_address := "Work";
  home_address := "Home";
  check_time := (16, 30);
  desired_arrival_time := (18, 0);
  buffer_minutes := 10;
  heavy_traffic_threshold := 13 # 10;
  Config.waypoints := []
|}.

(** A tick at [h]:[m] that receives [body]. *)
Definition tick_at (h m : Z) (body : json) (ok : bool) : reading := {|
  current_time := at_ h m;
  response := Body body;
  calc_now1 := at_ h m;
  calc_now2 := at_ h m;
  delivery_ok := ok
|}.

(** 1800 s without traffic, 2700 s with traffic. *)
Definition congested : json := ok_body [leg 1800 2700 20000].

Definition idle : state :=
  {| last_notification_time := None; notification_sent_today := false |}.

(** An evening: the alert at 17:00, then the five-minute job at 17:05 and
    a late check at 17:25. *)
Definition evening : list tick :=
  [ Daily (tick_at 17 0 congested true);
    Poll (at_ 17 5) (tick_at 17 5 congested true);
    Daily (tick_at 17 25 congested true) ].

(** Two ticks of the five-minute job, twenty and fifteen minutes before the
    departure time of 17:05. *)
Definition nagging : list tick :=
  [ Poll (at_ 16 45) (tick_at 16 45 congested true);
    Poll (at_ 16 50) (tick_at 16 50 congested true) ].

(** A sample of a free road. *)
Definition free_data : traffic_data := {|
  total_duration := 1800;
  total_duration_traffic := 1800;
  total_distance := 20000;
  summary := JStr "A1";
  TrafficMonitor.waypoints := [];
  start_address := JStr "Work";
  end_address := JStr "Home";
  traffic_ratio := 1
|}.

(** A sample whose duration in traffic is not a whole number of minutes. *)
Definition slow_data : traffic_data := {|
  total_duration := 1800;
  total_duration_traffic := 2701;
  total_distance := 20000;
  summary := JStr "A1";
  TrafficMonitor.waypoints := [];
  start_address := JStr "Work";
  end_address := JStr "Home";
  traffic_ratio := 2701 # 1800
|}.

(** What [_parse_route_data] makes of [congested]. *)
Definition congested_data : traffic_data := {|
  total_duration := 1800;
  total_duration_traffic := 2700;
  total_distance := 20000;
  summary := JStr "A1";
  TrafficMonitor.waypoints := [];
  start_address := JStr "Work";
  end_address := JStr "Home";
  traffic_ratio := 3 # 2
|}.

End Scenario.

(** ** config.py: the list of stops *)

Module Waypoints.

Import Config.

Definition with_waypoints (cfg : CommuteConfig) (ws : list string)
  : CommuteConfig :=
  {| work_address := work_address cfg;
     home_address := home_address cfg;
     check_time := check_time cfg;
     desired_arrival_time := desired_arrival_time cfg;
     buffer_minutes := buffer_minutes cfg;
     heavy_traffic_threshold := heavy_traffic_threshold cfg;
     waypoints := ws |}.

(** [add_waypoint]: the configuration after the call and the boolean
    returned. *)
Definition add_waypoint (cfg : CommuteConfig) (address : string)
  : CommuteConfig * bool :=
  if bool_decide (address ∉ waypoints cfg)
  then (with_waypoints cfg (waypoints cfg ++ [address]), true)
  else (cfg, false).

(** [list.remove(x)] on a list that holds [x]: the first occurrence goes. *)
Fixpoint list_remove (x : string) (l : list string) : list string :=
  match l with
  | [] => []
  | y :: rest => if decide (y = x) then rest else y :: list_remove x rest
  end.

Definition remove_waypoint (cfg : CommuteConfig) (address : string)
  : CommuteConfig * bool :=
  if bool_decide (address ∈ waypoints cfg)
  then (with_waypoints cfg (list_remove address (waypoints cfg)), true)
  else (cfg, false).

Definition clear_waypoints (cfg : CommuteConfig) : CommuteConfig :=
  with_waypoints cfg [].

End Waypoints.

(** ** telegram_bot.py: the commands that change the stops *)

Module TelegramBot.

Import Config Waypoints.

Definition nl : string := String (Ascii.ascii_of_nat 10) EmptyString.

(** The numbered lines [f"{i}. {stop}\n"] of [cmd_list_stops], from
    number [i] on. *)
Fixpoint numbered (i : nat) (stops : list string) : string :=
  match stops with
  | [] => ""
  | stop :: rest =>
      pretty i +:+ ". " +:+ stop +:+ nl +:+ numbered (S i) rest
  end.

(** Each handler takes the configuration and the words after the command
    ([context.args]) and gives the configuration after it and the text of
    the reply. *)
Definition cmd_add_stop (cfg : CommuteConfig) (args : list string)
  : CommuteConfig * string :=
  match args with
  | [] =>
      (cfg, "Please specify a location." +:+ nl
            +:+ "Example: `/add Whole Foods Market`")
  | _ =>
      let stop := String.concat " " args in
      let '(cfg', added) := add_waypoint cfg stop in
      if added
      then (cfg', "✅ Added stop: *" +:+ stop +:+ "*" +:+ nl +:+ nl
                  +:+ "You now have " +:+ pretty (length (waypoints cfg'))
                  +:+ " stop(s).")
      else (cfg', "⚠️ Stop *" +:+ stop +:+ "* already exists!")
  end.

Definition cmd_remove_stop (cfg : CommuteConfig) (args : list string)
  : CommuteConfig * string :=
  match args with
  | [] =>
      (cfg, "Please specify which stop to remove." +:+ nl
            +:+ "Use `/stops` to see your stops.")
  | _ =>
      let stop := String.concat " " args in
      let '(cfg', removed) := remove_waypoint cfg stop in
      if removed
      then (cfg', "✅ Removed stop: *" +:+ stop +:+ "*")
      else (cfg', "⚠️ Stop *" +:+ stop +:+ "* not found!")
  end.

Definition cmd_list_stops (cfg : CommuteConfig) : CommuteConfig * string :=
  match waypoints cfg with
  | [] => (cfg, "You have no stops configured.")
  | ws =>
      (cfg, "📍 *Your stops (" +:+ pretty (length ws) +:+ "):*" +:+ nl +:+ nl
            +:+ numbered 1 ws)
  end.

Definition cmd_clear_stops (cfg : CommuteConfig) : CommuteConfig * string :=
  let count := length (waypoints cfg) in
  (clear_waypoints cfg, "✅ Cleared " +:+ pretty count +:+ " stop(s).").

(** The commands of [setup_commands] that read or change the stops. *)
Inductive command :=
| Add (args : list string)
| Remove (args : list string)
| Stops
| Clear.

Definition handle (cfg : CommuteConfig) (c : command)
  : CommuteConfig * string :=
  match c with
  | Add args => cmd_add_stop cfg args
  | Remove args => cmd_remove_stop cfg args
  | Stops => cmd_list_stops cfg
  | Clear => cmd_clear_stops cfg
  end.

(** A conversation: the commands in the order received, on the one
    configuration object the bot and the assistant share. *)
Fixpoint session (cfg : CommuteConfig) (cs : list command)
  : CommuteConfig * list string :=
  match cs with
  | [] => (cfg, [])
  | c :: rest =>
      let '(cfg', reply) := handle cfg c in
      let '(final, replies) := session cfg' rest in
      (final, reply :: replies)
  end.

End TelegramBot.

(** ** Responses of the documented shape *)

Module Provider.

(** A leg as the directions provider sends it; [duration_in_traffic] is
    optional. *)
Record leg := {
  duration : Z;
  duration_in_traffic : option Z;
  distance : Z;
  start_address : string;
  end_address : string
}.

Definition value (n : Z) : json := JDict {[ "value" := JInt n ]}.

Definition leg_json (l : leg) : json :=
  let base : gmap string json :=
    <["duration" := value (duration l)]>
    (<["distance" := value (distance l)]>
    (<["start_address" := JStr (start_address l)]>
     {[ "end_address" := JStr (end_address l) ]})) in
  JDict (match duration_in_traffic l with
         | Some t => <["duration_in_traffic" := value t]> base
         | None => base
         end).

(** [{"status": "OK", "routes": [{"summary": .., "legs": [..]}]}]. *)
Definition ok_response (summary : string) (legs : list leg) : json :=
  JDict (<["status" := JStr "OK"]>
         {[ "routes" :=
              JList [JDict (<["summary" := JStr summary]>
                            {[ "legs" := JList (leg_json <$> legs) ]})] ]}).

(** The duration a leg counts for in traffic. *)
Definition in_traffic (l : leg) : Z :=
  default (duration l) (duration_in_traffic l).

Definition sum_of (f : leg -> Z) (legs : list leg) : Z :=
  foldr (fun l acc => f l + acc) 0 legs.

(** The stops [_parse_route_data] lists for the legs, from index [i] on. *)
Fixpoint stops_of (wps : list string) (i : nat) (legs : list leg)
  : list TrafficMonitor.stop :=
  match legs with
  | [] => []
  | l :: rest =>
      {| TrafficMonitor.address := default "Unknown" (wps !! i);
         TrafficMonitor.duration_to_next := JInt (duration l);
         TrafficMonitor.distance_to_next := JInt (distance l) |}
      :: stops_of wps (S i) rest
  end.

(** Two legs, the first with traffic data. *)
Definition to_bakery : leg :=
  {| duration := 600; duration_in_traffic := Some 900; distance := 5000;
     start_address := "Work"; end_address := "Bakery" |}.
Definition to_home : leg :=
  {| duration := 900; duration_in_traffic := None; distance := 7000;
     start_address := "Bakery"; end_address := "Home" |}.

End Provider.

(** * Properties *)

Import TrafficMonitor Config SmartCommute.

(** ** Comparisons on rationals *)

Section Comparisons.

Lemma Qlt_bool_iff (a b : Q) : Qlt_bool a b = true <-> (a < b)%Q.
Proof.
  unfold Qlt_bool. rewrite negb_true_iff. split.
  - intros H. apply Qnot_le_lt. intros Hle.
    apply Qle_bool_iff in Hle. congruence.
  - intros H. destruct (Qle_bool b a) eqn:E; [|reflexivity].
    apply Qle_bool_iff in E. exfalso. exact (Qlt_not_le _ _ H E).
Qed.

Lemma Qle_bool_false (a b : Q) : Qle_bool a b = false <-> (b < a)%Q.
Proof.
  rewrite <- Qlt_bool_iff. unfold Qlt_bool.
  destruct (Qle_bool a b); simpl; split; congruence.
Qed.

End Comparisons.

(** ** The chain of conditions at the end of a tick *)

Ltac split_branches :=
  repeat match goal with
    | |- context [if ?b then _ else _] => destruct b eqn:?; simpl
    end.

Section Timing.

Variables (cfg : CommuteConfig) (st : state) (env : reading)
  (td : traffic_data) (ts : status) (tt : string) (t : Q).

Local Abbreviation outcome := (send_by_timing cfg st env td ts tt t).

Lemma timing_departure :
  emitted is_departure_alert outcome.2 = true <->
  (0 <= t <= 5)%Q /\ notification_sent_today st = false.
Proof.
  unfold send_by_timing.
  destruct (Qle_bool 0 t) eqn:E0, (Qle_bool t 5) eqn:E5,
    (notification_sent_today st) eqn:Ef; simpl;
    split_branches;
    rewrite <- ?not_true_iff_false in *;
    rewrite ?Qle_bool_iff in *; intuition (try discriminate; try congruence).
Qed.

Lemma timing_departure_sets_flag :
  emitted is_departure_alert outcome.2 = true ->
  notification_sent_today outcome.1 = true.
Proof.
  unfold send_by_timing.
  split_branches; intros; try reflexivity; discriminate.
Qed.

Lemma timing_early :
  (heavy_traffic_threshold cfg <= traffic_ratio td)%Q ->
  (5 < t <= 20)%Q ->
  notification_sent_today st = false ->
  outcome =
    (st, Some (send_notification env (EarlyWarning tt (int_of t) ts))).
Proof.
  intros Hr [H5 H20] Hf. unfold send_by_timing.
  apply Qle_bool_iff in Hr, H20. apply Qlt_bool_iff in H5.
  assert (E5 : Qle_bool t 5 = false).
  { unfold Qlt_bool in H5. now apply negb_true_iff in H5. }
  rewrite E5, Hr, H5, H20, Hf, andb_false_r. reflexivity.
Qed.

(** Once the flag is set, the tick sends nothing and changes nothing. *)
Lemma timing_flag_set :
  notification_sent_today st = true -> outcome = (st, None).
Proof.
  intros Hf. unfold send_by_timing. rewrite Hf. simpl.
  rewrite !andb_false_r. split_branches; reflexivity.
Qed.

Lemma timing_sets_flag :
  emitted is_departure_or_late outcome.2 = true ->
  notification_sent_today outcome.1 = true.
Proof.
  unfold send_by_timing.
  split_branches; intros; try reflexivity; discriminate.
Qed.

(** What is sent reports the answer of the transport, and the state does
    not depend on that answer. *)
Lemma timing_delivered (e : emission) :
  outcome.2 = Some e -> delivered e = delivery_ok env.
Proof.
  unfold send_by_timing.
  split_branches; intros [= <-]; reflexivity.
Qed.

End Timing.

(** ** One run of [check_traffic_and_notify] *)

Section OneCheck.

Variables (cfg : CommuteConfig) (st : state) (env : reading).

(** A run that returns either left the state alone and sent nothing, or
    went through the chain of conditions. *)
Lemma check_ok_inv st' em :
  check_traffic_and_notify cfg st env = Ok (st', em) ->
  (st' = st /\ em = None) \/
  exists td ts tt t, (st', em) = send_by_timing cfg st env td ts tt t.
Proof.
  unfold check_traffic_and_notify.
  destruct (get_route_with_traffic _ _) as [[td|]|e]; simpl;
    [| intros [= <- <-]; now left | discriminate].
  destruct (calculate_departure_time _ _ _ _ _) as [[dep tm]|e]; simpl;
    [| discriminate].
  intros [= H]. right. eauto.
Qed.

Lemma check_flag_set st' em :
  notification_sent_today st = true ->
  check_traffic_and_notify cfg st env = Ok (st', em) ->
  st' = st /\ em = None.
Proof.
  intros Hf H. apply check_ok_inv in H as [H | (td & ts & tt & t & H)];
    [exact H |].
  rewrite timing_flag_set in H by exact Hf. now inversion H.
Qed.

Lemma check_sets_flag st' em :
  check_traffic_and_notify cfg st env = Ok (st', em) ->
  emitted is_departure_or_late em = true ->
  notification_sent_today st' = true.
Proof.
  intros H He. apply check_ok_inv in H as [[_ ->] | (td & ts & tt & t & H)];
    [discriminate |].
  pose proof (timing_sets_flag cfg st env td ts tt t) as Hs.
  rewrite <- H in Hs. simpl in Hs. auto.
Qed.

End OneCheck.

(** C1. On a tick that obtains a traffic sample and a departure time, the
    DepartureAlert is handed to the transport if and only if the minutes
    until departure lie in [0, 5], both ends included, and the daily flag
    is not set; and the tick that sends it sets the flag. *)
Theorem departure_alert_iff (cfg : CommuteConfig) (st : state) (env : reading)
    (td : traffic_data) (dep : datetime) (tm : Z) :
  get_route_with_traffic (response env) (inner_stops (get_full_route cfg))
  = Ok (Some td) ->
  calculate_departure_time td (desired_arrival_time cfg) (buffer_minutes cfg)
    (calc_now1 env) (calc_now2 env) = Ok (dep, tm) ->
  exists st' em,
    check_traffic_and_notify cfg st env = Ok (st', em) /\
    (emitted is_departure_alert em = true <->
     (0 <= minutes_until dep (current_time env) <= 5)%Q
     /\ notification_sent_today st = false) /\
    (emitted is_departure_alert em = true ->
     notification_sent_today st' = true).
Proof.
  intros Hroute Hcalc. unfold check_traffic_and_notify.
  rewrite Hroute. simpl. rewrite Hcalc. simpl.
  match goal with
  | |- context [Ok ?x] => set (o := x)
  end.
  exists o.1, o.2. split; [now destruct o |]. split.
  - apply timing_departure.
  - apply timing_departure_sets_flag.
Qed.

Lemma departure_alert_iff_witness :
  let env := Scenario.tick_at 17 0 Scenario.congested true in
  get_route_with_traffic (response env)
    (inner_stops (get_full_route Scenario.cfg))
  = Ok (Some Scenario.congested_data) /\
  calculate_departure_time Scenario.congested_data
    (desired_arrival_time Scenario.cfg) (buffer_minutes Scenario.cfg)
    (calc_now1 env) (calc_now2 env) = Ok (Scenario.at_ 17 5, 55) /\
  exists st' em,
    check_traffic_and_notify Scenario.cfg Scenario.idle env = Ok (st', em) /\
    (emitted is_departure_alert em = true <->
     (0 <= minutes_until (Scenario.at_ 17 5) (current_time env) <= 5)%Q
     /\ notification_sent_today Scenario.idle = false) /\
    (emitted is_departure_alert em = true ->
     notification_sent_today st' = true).
Proof.
  intros env.
  assert (H1 : get_route_with_traffic (response env)
                 (inner_stops (get_full_route Scenario.cfg))
               = Ok (Some Scenario.congested_data))
    by (vm_compute; reflexivity).
  assert (H2 : calculate_departure_time Scenario.congested_data
                 (desired_arrival_time Scenario.cfg)
                 (buffer_minutes Scenario.cfg)
                 (calc_now1 env) (calc_now2 env)
               = Ok (Scenario.at_ 17 5, 55))
    by (vm_compute; reflexivity).
  split; [exact H1 |]. split; [exact H2 |].
  exact (departure_alert_iff Scenario.cfg Scenario.idle env
           Scenario.congested_data (Scenario.at_ 17 5) 55 H1 H2).
Defined.

(** The three end-to-end scenarios of the specification: at 17:25 the
    departure time (17:05) is twenty minutes past and the late warning is
    sent; at 16:40 it is twenty-five minutes away and nothing is sent; at
    17:00 it is exactly five minutes away and the departure alert is sent. *)
Example scenario_A :
  check_traffic_and_notify Scenario.cfg Scenario.idle
    (Scenario.tick_at 17 25 Scenario.congested true)
  = Ok ({| last_notification_time := None; notification_sent_today := true |},
        Some {| sent := LateWarning "45 min"; delivered := true |}).
Proof. vm_compute. reflexivity. Qed.

Example scenario_B :
  check_traffic_and_notify Scenario.cfg Scenario.idle
    (Scenario.tick_at 16 40 Scenario.congested true)
  = Ok (Scenario.idle, None).
Proof. vm_compute. reflexivity. Qed.

Example scenario_C :
  check_traffic_and_notify Scenario.cfg Scenario.idle
    (Scenario.tick_at 17 0 Scenario.congested true)
  = Ok ({| last_notification_time := Some (Scenario.at_ 17 0);
           notification_sent_today := true |},
        Some {| sent := DepartureAlert "45 min" (JStr "A1") Heavy [];
                delivered := true |}).
Proof. vm_compute. reflexivity. Qed.

(** ** The daily flag along a run of ticks *)

Section Day.

Variable cfg : CommuteConfig.

(** A tick that does not reset either leaves everything alone or is a run
    of [check_traffic_and_notify] from the same state. *)
Lemma step_no_reset_inv st tk st' em :
  resets tk = false ->
  step cfg st tk = Ok (st', em) ->
  (st' = st /\ em = None) \/
  exists env, check_traffic_and_notify cfg st env = Ok (st', em).
Proof.
  destruct tk as [env | now env]; simpl; intros Hr H.
  - right. eauto.
  - unfold _check_if_in_monitoring_window, midnight_reset in H.
    rewrite Hr in H.
    destruct (in_window cfg now) as [[|]|e]; simpl in H;
      [right; eauto | left; now inversion H | discriminate].
Qed.

Lemma step_flag_set st tk st' em :
  resets tk = false ->
  notification_sent_today st = true ->
  step cfg st tk = Ok (st', em) ->
  st' = st /\ em = None.
Proof.
  intros Hr Hf H. apply step_no_reset_inv in H as [H | [env H]];
    [exact H | | exact Hr].
  eapply check_flag_set; eauto.
Qed.

Lemma step_sets_flag st tk st' em :
  step cfg st tk = Ok (st', em) ->
  emitted is_departure_or_late em = true ->
  notification_sent_today st' = true.
Proof.
  destruct tk as [env | now env]; simpl.
  - apply check_sets_flag.
  - unfold _check_if_in_monitoring_window.
    destruct (in_window cfg now) as [[|]|e]; simpl;
      [apply check_sets_flag | intros [= _ <-]; discriminate | discriminate].
Qed.

(** The flag goes from set to clear only on a tick of the five-minute job
    whose clock shows hour 0 and a minute below 5. *)
Lemma flag_cleared_only_by_reset st tk st' em :
  step cfg st tk = Ok (st', em) ->
  notification_sent_today st = true ->
  notification_sent_today st' = false ->
  resets tk = true.
Proof.
  intros H Hf Hf'. destruct (resets tk) eqn:Hr; [reflexivity |].
  destruct (step_flag_set _ _ _ _ Hr Hf H) as [-> _]. congruence.
Qed.

Lemma count_option_app em ems :
  count_departure_or_late (option_list em ++ ems)
  = ((if emitted is_departure_or_late em then 1 else 0)
     + count_departure_or_late ems)%nat.
Proof.
  unfold count_departure_or_late. rewrite filter_app, length_app.
  f_equal. destruct em as [e|]; simpl; [| reflexivity].
  rewrite filter_cons, filter_nil.
  destruct (is_departure_or_late (sent e)); now case_decide.
Qed.

Lemma run_step st tk rest st' em :
  step cfg st tk = Ok (st', em) ->
  run cfg st (tk :: rest)
  = (option_list em ++ (run cfg st' rest).1, (run cfg st' rest).2).
Proof. simpl. intros ->. now destruct (run cfg st' rest). Qed.

Lemma run_raise st tk rest e :
  step cfg st tk = Raise e -> run cfg st (tk :: rest) = ([], Raise e).
Proof. simpl. now intros ->. Qed.

(** The number of DepartureAlert and LateWarning messages of a run without
    reset is bounded by what the flag still allows. *)
Lemma run_budget ticks :
  Forall (fun tk => resets tk = false) ticks ->
  forall st,
    (count_departure_or_late (run cfg st ticks).1
     <= if notification_sent_today st then 0 else 1)%nat.
Proof.
  induction 1 as [| tk rest Hr _ IH]; intros st.
  - simpl. destruct (notification_sent_today st); unfold count_departure_or_late;
      simpl; lia.
  - destruct (step cfg st tk) as [[st' em]|e] eqn:Hs.
    + rewrite (run_step _ _ _ _ _ Hs). simpl. rewrite count_option_app.
      specialize (IH st').
      destruct (notification_sent_today st) eqn:Hf.
      * destruct (step_flag_set _ _ _ _ Hr Hf Hs) as [-> ->].
        rewrite Hf in IH. simpl. lia.
      * destruct (emitted is_departure_or_late em) eqn:He.
        -- rewrite (step_sets_flag _ _ _ _ Hs He) in IH. lia.
        -- destruct (notification_sent_today st'); lia.
    + rewrite (run_raise _ _ _ _ Hs). unfold count_departure_or_late. simpl.
      destruct (notification_sent_today st); lia.
Qed.

End Day.

(** C2. Along a run of ticks none of which resets the daily state, the
    DepartureAlert and LateWarning messages number at most one together;
    and the flag that guards both is cleared only by a reset, that is on a
    tick of the five-minute job at hour 0 and a minute below 5. *)
Theorem one_departure_or_late_per_day (cfg : CommuteConfig) (st : state)
    (ticks : list tick) :
  Forall (fun tk => resets tk = false) ticks ->
  (count_departure_or_late (run cfg st ticks).1 <= 1)%nat /\
  (forall s tk s' em,
      step cfg s tk = Ok (s', em) ->
      notification_sent_today s = true ->
      notification_sent_today s' = false ->
      exists now env, tk = Poll now env /\ hour now = 0 /\ minute now < 5).
Proof.
  intros Hno. split.
  - pose proof (run_budget cfg ticks Hno st) as H.
    destruct (notification_sent_today st); lia.
  - intros s tk s' em Hs Hf Hf'.
    pose proof (flag_cleared_only_by_reset cfg _ _ _ _ Hs Hf Hf') as Hr.
    destruct tk as [env | now env]; simpl in Hr; [discriminate |].
    apply andb_true_iff in Hr as [Hh Hm].
    exists now, env. repeat split; lia.
Qed.

Lemma one_departure_or_late_per_day_witness :
  Forall (fun tk => resets tk = false) Scenario.evening /\
  (count_departure_or_late (run Scenario.cfg Scenario.idle Scenario.evening).1
   <= 1)%nat /\
  (forall s tk s' em,
      step Scenario.cfg s tk = Ok (s', em) ->
      notification_sent_today s = true ->
      notification_sent_today s' = false ->
      exists now env, tk = Poll now env /\ hour now = 0 /\ minute now < 5).
Proof.
  assert (H : Forall (fun tk => resets tk = false) Scenario.evening)
    by (repeat constructor).
  split; [exact H |].
  exact (one_departure_or_late_per_day Scenario.cfg Scenario.idle
           Scenario.evening H).
Defined.

Example evening_trace :
  run Scenario.cfg Scenario.idle Scenario.evening
  = ([ {| sent := DepartureAlert "45 min" (JStr "A1") Heavy [];
          delivered := true |} ],
     Ok {| last_notification_time := Some (Scenario.at_ 17 0);
           notification_sent_today := true |}).
Proof. vm_compute. reflexivity. Qed.

(** ** The early warning *)

Section Early.

Variable cfg : CommuteConfig.

Lemma check_early st env :
  early_window cfg env ->
  notification_sent_today st = false ->
  exists e,
    check_traffic_and_notify cfg st env = Ok (st, Some e) /\
    is_early_warning (sent e) = true.
Proof.
  intros (td & dep & tm & Hroute & Hcalc & Hr & Ht) Hf.
  unfold check_traffic_and_notify. rewrite Hroute. simpl.
  rewrite Hcalc. simpl. rewrite timing_early by assumption.
  eexists. split; reflexivity.
Qed.

Lemma midnight_reset_clear st now :
  notification_sent_today st = false -> midnight_reset st now = st.
Proof.
  intros Hf. unfold midnight_reset. destruct st as [l f]. simpl in *.
  subst f. now destruct (_ && _).
Qed.

Lemma step_early st tk env :
  admitted cfg tk = Some env ->
  early_window cfg env ->
  notification_sent_today st = false ->
  exists e,
    step cfg st tk = Ok (st, Some e) /\ is_early_warning (sent e) = true.
Proof.
  destruct tk as [env' | now env']; simpl.
  - intros [= ->]. apply check_early.
  - unfold _check_if_in_monitoring_window.
    destruct (in_window cfg now) as [[|]|]; try discriminate.
    intros [= ->] Hw Hf. simpl. rewrite midnight_reset_clear by exact Hf.
    now apply check_early.
Qed.

End Early.

(** C3. On every tick that runs the check with heavy traffic, the departure
    more than 5 and at most 20 minutes away and the daily flag clear, the
    EarlyWarning is handed to the transport and the state is left exactly
    as it was; so along any run of such ticks every tick sends it again. *)
Theorem early_warning_repeats (cfg : CommuteConfig) (st : state)
    (ticks : list tick) :
  notification_sent_today st = false ->
  Forall (fun tk => exists env,
            admitted cfg tk = Some env /\ early_window cfg env) ticks ->
  exists ems,
    run cfg st ticks = (ems, Ok st) /\
    length ems = length ticks /\
    Forall (fun e => is_early_warning (sent e) = true) ems.
Proof.
  intros Hf Hall. induction Hall as [| tk rest (env & Ha & Hw) _ IH].
  - exists []. repeat split. constructor.
  - destruct IH as (ems & Hrun & Hlen & Hems).
    destruct (step_early cfg st tk env Ha Hw Hf) as (e & Hs & He).
    exists (e :: ems). rewrite (run_step _ _ _ _ _ _ Hs), Hrun. simpl.
    repeat split; [now rewrite Hlen | now constructor].
Qed.

Lemma early_warning_repeats_witness :
  notification_sent_today Scenario.idle = false /\
  Forall (fun tk => exists env,
            admitted Scenario.cfg tk = Some env
            /\ early_window Scenario.cfg env) Scenario.nagging /\
  exists ems,
    run Scenario.cfg Scenario.idle Scenario.nagging = (ems, Ok Scenario.idle) /\
    length ems = length Scenario.nagging /\
    Forall (fun e => is_early_warning (sent e) = true) ems.
Proof.
  assert (H : Forall (fun tk => exists env,
                        admitted Scenario.cfg tk = Some env
                        /\ early_window Scenario.cfg env) Scenario.nagging).
  { repeat constructor;
      (eexists; split; [vm_compute; reflexivity |]);
      exists Scenario.congested_data, (Scenario.at_ 17 5), 55;
      (split; [vm_compute; reflexivity |]);
      (split; [vm_compute; reflexivity |]);
      (split; [apply Qle_bool_iff; vm_compute; reflexivity |]);
      (split; [apply Qlt_bool_iff | apply Qle_bool_iff]);
      vm_compute; reflexivity. }
  split; [reflexivity |]. split; [exact H |].
  exact (early_warning_repeats Scenario.cfg Scenario.idle Scenario.nagging
           eq_refl H).
Defined.

Example nagging_trace :
  run Scenario.cfg Scenario.idle Scenario.nagging
  = ([ {| sent := EarlyWarning "45 min" 20 Heavy; delivered := true |};
       {| sent := EarlyWarning "45 min" 15 Heavy; delivered := true |} ],
     Ok Scenario.idle).
Proof. vm_compute. reflexivity. Qed.

(** ** Delivery failure *)

Lemma timing_with_delivery cfg st env td ts tt t ok st' e :
  send_by_timing cfg st env td ts tt t = (st', Some e) ->
  send_by_timing cfg st (with_delivery env ok) td ts tt t
  = (st', Some {| sent := sent e; delivered := ok |}).
Proof.
  unfold send_by_timing. simpl.
  split_branches; intros [= <- <-]; reflexivity.
Qed.

Lemma check_with_delivery cfg st env ok st' e :
  check_traffic_and_notify cfg st env = Ok (st', Some e) ->
  check_traffic_and_notify cfg st (with_delivery env ok)
  = Ok (st', Some {| sent := sent e; delivered := ok |}).
Proof.
  unfold check_traffic_and_notify. simpl.
  destruct (get_route_with_traffic _ _) as [[td|]|]; simpl; try discriminate.
  destruct (calculate_departure_time _ _ _ _ _) as [[dep tm]|]; simpl;
    try discriminate.
  intros [= H]. f_equal. now apply timing_with_delivery.
Qed.

(** The policy does not hold of the code: at 17:00 the alert is due, the
    transport refuses it, and the flag is set all the same. *)
Lemma failed_delivery_sets_flag :
  ~ Spec.state_kept_on_failed_delivery Scenario.cfg Scenario.idle
      (Scenario.tick_at 17 0 Scenario.congested false).
Proof.
  intros H.
  specialize (H {| last_notification_time := Some (Scenario.at_ 17 0);
                   notification_sent_today := true |}
                {| sent := DepartureAlert "45 min" (JStr "A1") Heavy [];
                   delivered := false |}).
  assert (E : true = false); [| discriminate E].
  apply H; vm_compute; reflexivity.
Qed.

(** C4, amended. A tick that hands a DepartureAlert or LateWarning to the
    transport ends with the daily flag set whatever the transport answers:
    the message and the final state are the same for either answer, and no
    later tick before a reset sends a DepartureAlert or LateWarning. *)
Theorem delivery_failure_still_commits (cfg : CommuteConfig) (st st' : state)
    (env : reading) (e : emission) :
  check_traffic_and_notify cfg st env = Ok (st', Some e) ->
  is_departure_or_late (sent e) = true ->
  delivered e = delivery_ok env /\
  notification_sent_today st' = true /\
  (forall ok,
      check_traffic_and_notify cfg st (with_delivery env ok)
      = Ok (st', Some {| sent := sent e; delivered := ok |})) /\
  (forall ticks,
      Forall (fun tk => resets tk = false) ticks ->
      count_departure_or_late (run cfg st' ticks).1 = 0%nat).
Proof.
  intros Hc Hk.
  assert (Hf : notification_sent_today st' = true)
    by (eapply check_sets_flag; [exact Hc | exact Hk]).
  repeat split.
  - destruct (check_ok_inv _ _ _ _ _ Hc) as [[_ [=]] | (td & ts & tt & t & H)].
    apply (timing_delivered cfg st env td ts tt t). now rewrite <- H.
  - exact Hf.
  - intros ok. now apply check_with_delivery.
  - intros ticks Hno. pose proof (run_budget cfg ticks Hno st') as H.
    rewrite Hf in H. lia.
Qed.

Lemma delivery_failure_still_commits_witness :
  let env := Scenario.tick_at 17 0 Scenario.congested false in
  let st' := {| last_notification_time := Some (Scenario.at_ 17 0);
                notification_sent_today := true |} in
  let e := {| sent := DepartureAlert "45 min" (JStr "A1") Heavy [];
              delivered := false |} in
  check_traffic_and_notify Scenario.cfg Scenario.idle env = Ok (st', Some e) /\
  is_departure_or_late (sent e) = true /\
  delivered e = delivery_ok env /\
  notification_sent_today st' = true /\
  (forall ok,
      check_traffic_and_notify Scenario.cfg Scenario.idle (with_delivery env ok)
      = Ok (st', Some {| sent := sent e; delivered := ok |})) /\
  (forall ticks,
      Forall (fun tk => resets tk = false) ticks ->
      count_departure_or_late (run Scenario.cfg st' ticks).1 = 0%nat).
Proof.
  intros env st' e.
  assert (H1 : check_traffic_and_notify Scenario.cfg Scenario.idle env
               = Ok (st', Some e)) by (vm_compute; reflexivity).
  assert (H2 : is_departure_or_late (sent e) = true) by reflexivity.
  split; [exact H1 |]. split; [exact H2 |].
  exact (delivery_failure_still_commits Scenario.cfg Scenario.idle st' env e
           H1 H2).
Defined.

(** ** The departure calculator *)

Section Calculator.

Lemma round_half_even_Z (q : Q) (n : Z) :
  (q == inject_Z n)%Q -> round_half_even q = n.
Proof.
  intros H. unfold round_half_even.
  assert (Hf : Qfloor q = n) by (rewrite H; apply Qfloor_Z).
  rewrite Hf.
  assert (Hc : ((q - inject_Z n) ?= (1 # 2))%Q = Lt).
  { rewrite H. apply Qlt_alt.
    assert (E : (inject_Z n - inject_Z n == 0)%Q) by ring.
    rewrite E. reflexivity. }
  now rewrite Hc.
Qed.

(** The timedelta of [travel_seconds / 60 + buffer_minutes] minutes is a
    whole number of microseconds: nothing is rounded. *)
Lemma timedelta_travel (s b : Z) :
  timedelta_minutes (inject_Z s / 60 + inject_Z b)
  = s * us_per_second + b * us_per_minute.
Proof.
  unfold timedelta_minutes. apply round_half_even_Z.
  unfold us_per_minute, us_per_second.
  rewrite inject_Z_plus, !inject_Z_mult. field.
Qed.

Lemma int_of_travel (s b : Z) :
  0 <= s -> 0 <= b -> int_of (inject_Z s / 60 + inject_Z b) = s / 60 + b.
Proof.
  intros Hs Hb. unfold int_of.
  unfold Qdiv, Qmult, Qplus, Qinv, inject_Z. cbn [Qnum Qden].
  change (Z.pos (1 * 60 * 1)) with 60. change (Z.pos (1 * 60)) with 60.
  rewrite !Z.mul_1_r, Z.quot_div_nonneg by lia.
  now rewrite Z.div_add by lia.
Qed.

Lemma replace_ok (t h m : Z) :
  0 <= h < 24 -> 0 <= m < 60 ->
  replace t h m 0 0 = Ok (midnight t + h * us_per_hour + m * us_per_minute).
Proof.
  intros Hh Hm. unfold replace, in_range.
  replace (0 <=? h) with true by (symmetry; apply Z.leb_le; lia).
  replace (h <? 24) with true by (symmetry; apply Z.ltb_lt; lia).
  replace (0 <=? m) with true by (symmetry; apply Z.leb_le; lia).
  replace (m <? 60) with true by (symmetry; apply Z.ltb_lt; lia).
  simpl. f_equal. lia.
Qed.

(** The target arrival is never before [now]. *)
Lemma targetArrival_not_past (now h m : Z) :
  0 <= h -> 0 <= m -> now <= Spec.targetArrival now h m.
Proof.
  intros Hh Hm. unfold Spec.targetArrival.
  destruct (_ <? now) eqn:E.
  - unfold midnight.
    assert (Hd : 0 <= now mod us_per_day < us_per_day)
      by (apply Z.mod_pos_bound; reflexivity).
    unfold us_per_hour, us_per_minute, us_per_second in *. nia.
  - apply Z.ltb_ge in E. exact E.
Qed.

End Calculator.

(** The recommendation of the specification is not what the code returns:
    with 2701 seconds in traffic and a buffer of 10 minutes, the code
    returns 55 minutes and a departure at 17:04:59, the specification 56
    minutes and 17:04:00. *)
Lemma travel_minutes_not_ceiling :
  calculate_departure_time Scenario.slow_data (18, 0) 10
    (Scenario.at_ 17 0) (Scenario.at_ 17 0)
  = Ok (Scenario.at_ 17 5 - us_per_second, 55) /\
  Spec.recommend 2701 (18, 0) 10 (Scenario.at_ 17 0) = (Scenario.at_ 17 4, 56) /\
  calculate_departure_time Scenario.slow_data (18, 0) 10
    (Scenario.at_ 17 0) (Scenario.at_ 17 0)
  <> Ok (Spec.recommend (total_duration_traffic Scenario.slow_data) (18, 0) 10
           (Scenario.at_ 17 0)).
Proof.
  repeat split; try (vm_compute; reflexivity).
  vm_compute. discriminate.
Qed.

(** C5, amended. For a sample with a non-negative duration in traffic, a
    valid time of day, a non-negative buffer and one clock reading [now]:
    the target arrival is the desired time of day on the date of [now],
    one day later when that is strictly before [now], and never before
    [now]; the returned travel minutes are
    floor(duration_with_traffic_seconds / 60) + buffer; and the returned
    departure is the target arrival minus the unrounded travel time, that
    is minus the seconds in traffic and the buffer minutes. *)
Theorem calculate_departure_time_floor (td : traffic_data) (h m b : Z)
    (now : datetime) :
  0 <= h < 24 -> 0 <= m < 60 -> 0 <= b -> 0 <= total_duration_traffic td ->
  let s := total_duration_traffic td in
  let target := Spec.targetArrival now h m in
  calculate_departure_time td (h, m) b now now
  = Ok (target - (s * us_per_second + b * us_per_minute), s / 60 + b) /\
  now <= target.
Proof.
  intros Hh Hm Hb Hs s target. split.
  - unfold calculate_departure_time. rewrite replace_ok by assumption.
    simpl. rewrite timedelta_travel, int_of_travel by assumption.
    unfold timedelta_days. rewrite Z.mul_1_l. reflexivity.
  - apply targetArrival_not_past; lia.
Qed.

Lemma calculate_departure_time_floor_witness :
  0 <= 18 < 24 /\ 0 <= 0 < 60 /\ 0 <= 10 /\
  0 <= total_duration_traffic Scenario.slow_data /\
  let s := total_duration_traffic Scenario.slow_data in
  let target := Spec.targetArrival (Scenario.at_ 17 0) 18 0 in
  calculate_departure_time Scenario.slow_data (18, 0) 10
    (Scenario.at_ 17 0) (Scenario.at_ 17 0)
  = Ok (target - (s * us_per_second + 10 * us_per_minute), s / 60 + 10) /\
  Scenario.at_ 17 0 <= target.
Proof.
  assert (H1 : 0 <= 18 < 24) by lia.
  assert (H2 : 0 <= 0 < 60) by lia.
  assert (H3 : 0 <= 10) by lia.
  assert (H4 : 0 <= total_duration_traffic Scenario.slow_data)
    by (simpl; lia).
  repeat (split; [assumption |]).
  exact (calculate_departure_time_floor Scenario.slow_data 18 0 10
           (Scenario.at_ 17 0) H1 H2 H3 H4).
Defined.

(** ** The sampling boundary *)

Section Sampling.

Variable wps : option (list string).

(** A failed request is turned into [None]. *)
Lemma request_failure_is_none :
  get_route_with_traffic RequestFailed wps = Ok None.
Proof. reflexivity. Qed.

(** So is every body that has a status other than "OK". *)
Lemma non_ok_status_is_none data st :
  getitem_str data "status" = Ok st ->
  eq_str st "OK" = false ->
  get_route_with_traffic (Body data) wps = Ok None.
Proof.
  intros Hs Hne. unfold get_route_with_traffic. rewrite Hs. simpl.
  now rewrite Hne.
Qed.

(** With status "OK" the result is that of the parse, whose exceptions are
    not of the class the handler catches. *)
Lemma ok_status_is_parse data st :
  getitem_str data "status" = Ok st ->
  eq_str st "OK" = true ->
  get_route_with_traffic (Body data) wps
  = except_request (let! td := _parse_route_data data wps in Ok (Some td)).
Proof.
  intros Hs He. unfold get_route_with_traffic. rewrite Hs. simpl.
  now rewrite He.
Qed.

Lemma empty_routes_parse :
  _parse_route_data Scenario.empty_routes wps = Raise IndexError.
Proof. reflexivity. Qed.

Lemma zero_duration_parse :
  _parse_route_data Scenario.zero_duration wps = Raise ZeroDivisionError.
Proof. destruct wps as [[|a l]|]; vm_compute; reflexivity. Qed.

End Sampling.

(** C6. The sampling operation returns [None] for a failed request and for
    a refused one, but not for a body with status "OK" and an empty list of
    routes: there the subscript [data["routes"][0]] raises [IndexError],
    which leaves [get_route_with_traffic], [check_traffic_and_notify] and
    the scheduling loop. *)
Theorem empty_routes_raise (wps : option (list string)) (cfg : CommuteConfig)
    (st : state) (h m : Z) (ok : bool) (rest : list tick) :
  get_route_with_traffic RequestFailed wps = Ok None /\
  get_route_with_traffic (Body Scenario.denied) wps = Ok None /\
  get_route_with_traffic (Body Scenario.empty_routes) wps = Raise IndexError /\
  check_traffic_and_notify cfg st
    (Scenario.tick_at h m Scenario.empty_routes ok) = Raise IndexError /\
  run cfg st (Daily (Scenario.tick_at h m Scenario.empty_routes ok) :: rest)
  = ([], Raise IndexError).
Proof.
  assert (H : forall w,
             get_route_with_traffic (Body Scenario.empty_routes) w
             = Raise IndexError) by reflexivity.
  assert (Hc : check_traffic_and_notify cfg st
                 (Scenario.tick_at h m Scenario.empty_routes ok)
               = Raise IndexError).
  { unfold check_traffic_and_notify. simpl response. now rewrite H. }
  split; [reflexivity |]. split; [reflexivity |]. split; [apply H |].
  split; [exact Hc |]. apply run_raise. exact Hc.
Qed.

(** C7. A response whose legs have a total plain duration of zero is not
    rejected: the division [total_duration_traffic / total_duration] is
    evaluated with the divisor 0 and raises [ZeroDivisionError], which
    leaves [get_route_with_traffic], [check_traffic_and_notify] and the
    scheduling loop. *)
Theorem zero_duration_raises (wps : option (list string)) (cfg : CommuteConfig)
    (st : state) (h m : Z) (ok : bool) (rest : list tick) :
  sum_over (JList [Scenario.plain_leg 0 0]) plain_duration = Ok 0 /\
  get_route_with_traffic (Body Scenario.zero_duration) wps
  = Raise ZeroDivisionError /\
  check_traffic_and_notify cfg st
    (Scenario.tick_at h m Scenario.zero_duration ok)
  = Raise ZeroDivisionError /\
  run cfg st (Daily (Scenario.tick_at h m Scenario.zero_duration ok) :: rest)
  = ([], Raise ZeroDivisionError).
Proof.
  assert (H : forall w,
             get_route_with_traffic (Body Scenario.zero_duration) w
             = Raise ZeroDivisionError).
  { intros w. rewrite (ok_status_is_parse w _ (JStr "OK"));
      [now rewrite zero_duration_parse | reflexivity | reflexivity]. }
  assert (Hc : check_traffic_and_notify cfg st
                 (Scenario.tick_at h m Scenario.zero_duration ok)
               = Raise ZeroDivisionError).
  { unfold check_traffic_and_notify. simpl response. now rewrite H. }
  split; [reflexivity |]. split; [apply H |]. split; [exact Hc |].
  apply run_raise. exact Hc.
Qed.

(** ** Severity *)

(** C8. For a fixed threshold, whatever its value, the severity does not
    decrease when the traffic ratio increases, in the order light <
    moderate < heavy; and a ratio at or above the threshold is heavy. *)
Theorem analyze_traffic_monotone (td1 td2 : traffic_data) (threshold : Q) :
  (traffic_ratio td1 <= traffic_ratio td2)%Q ->
  status_le (analyze_traffic td1 threshold) (analyze_traffic td2 threshold) /\
  ((threshold <= traffic_ratio td2)%Q ->
   analyze_traffic td2 threshold = Heavy).
Proof.
  intros Hle. unfold analyze_traffic, status_le. split.
  - destruct (Qle_bool threshold (traffic_ratio td1)) eqn:E1.
    + apply Qle_bool_iff in E1.
      assert (E2 : Qle_bool threshold (traffic_ratio td2) = true)
        by (apply Qle_bool_iff; eapply Qle_trans; eassumption).
      rewrite E2. simpl. lia.
    + destruct (Qle_bool moderate_ratio (traffic_ratio td1)) eqn:M1.
      * apply Qle_bool_iff in M1.
        assert (M2 : Qle_bool moderate_ratio (traffic_ratio td2) = true)
          by (apply Qle_bool_iff; eapply Qle_trans; eassumption).
        rewrite M2.
        destruct (Qle_bool threshold (traffic_ratio td2)); simpl; lia.
      * simpl. lia.
  - intros Ht. apply Qle_bool_iff in Ht. now rewrite Ht.
Qed.

Lemma analyze_traffic_monotone_witness :
  (traffic_ratio Scenario.free_data <= traffic_ratio Scenario.congested_data)%Q /\
  status_le (analyze_traffic Scenario.free_data (105 # 100))
            (analyze_traffic Scenario.congested_data (105 # 100)) /\
  ((105 # 100 <= traffic_ratio Scenario.congested_data)%Q ->
   analyze_traffic Scenario.congested_data (105 # 100) = Heavy).
Proof.
  assert (H : (traffic_ratio Scenario.free_data
               <= traffic_ratio Scenario.congested_data)%Q)
    by (apply Qle_bool_iff; reflexivity).
  split; [exact H |].
  exact (analyze_traffic_monotone Scenario.free_data Scenario.congested_data
           (105 # 100) H).
Defined.

(** A threshold below 1.1: the ratio 1 is light, 1.05 and 1.5 are heavy, and
    nothing is moderate. *)
Example misconfigured_threshold :
  analyze_traffic Scenario.free_data (105 # 100) = Light /\
  analyze_traffic Scenario.congested_data (105 # 100) = Heavy.
Proof. split; reflexivity. Qed.

(** ** The parsed route *)

Section Parse.

Lemma index_list_elem {A} (l : list A) (i : Z) (x : A) :
  index_list l i = Ok x -> x ∈ l.
Proof.
  unfold index_list. destruct (_ && _); [| discriminate].
  destruct (l !! _) eqn:E; [| discriminate].
  intros [= <-]. eapply list_elem_of_lookup_2. exact E.
Qed.

Lemma index_list_0 {A} (l : list A) (x : A) :
  index_list l 0 = Ok x -> l <> [].
Proof. intros H ->. discriminate H. Qed.

(** A subscript by a string succeeds on a dict only. *)
Lemma getitem_str_dict v k x :
  getitem_str v k = Ok x -> exists m, v = JDict m /\ m !! k = Some x.
Proof.
  destruct v; simpl; try discriminate.
  destruct (m !! k) eqn:E; [| discriminate]. intros [= <-]. eauto.
Qed.

Lemma chars_not_dict s x k y : x ∈ chars s -> getitem_str x k <> Ok y.
Proof.
  unfold chars. intros (c & -> & _)%list_elem_of_fmap. discriminate.
Qed.

(** What a successful parse says of the response: the legs are a
    non-empty list, the totals are the sums over it, the stops are built
    from all legs but the last, and the divisor is not zero. *)
Lemma parse_ok_inv data wps td :
  _parse_route_data data wps = Ok td ->
  exists legs,
    route_legs data = Ok (JList legs) /\ legs <> [] /\
    sum_gen plain_duration legs 0 = Ok (total_duration td) /\
    sum_gen traffic_duration legs 0 = Ok (total_duration_traffic td) /\
    (if truthy wps then build_stops (default [] wps) 0 (removelast legs)
     else Ok []) = Ok (TrafficMonitor.waypoints td) /\
    total_duration td <> 0 /\
    traffic_ratio td
    = Qred (inject_Z (total_duration_traffic td)
            / inject_Z (total_duration td)).
Proof.
  unfold _parse_route_data, route_legs.
  destruct (getitem_str data "routes") as [routes|]; simpl; [| discriminate].
  destruct (getitem_int routes 0) as [route|]; simpl; [| discriminate].
  destruct (getitem_str route "legs") as [lj|]; simpl; [| discriminate].
  destruct (sum_over lj plain_duration) as [total|] eqn:Et; simpl;
    [| discriminate].
  destruct (sum_over lj traffic_duration) as [tt|] eqn:Ett; simpl;
    [| discriminate].
  destruct (sum_over lj leg_distance) as [dist|]; simpl; [| discriminate].
  destruct (if truthy wps then _ else _) as [stops|] eqn:Es; simpl;
    [| discriminate].
  destruct (getitem_str route "summary") as [summ|]; simpl; [| discriminate].
  destruct (getitem_int lj 0) as [first|] eqn:Ef; simpl; [| discriminate].
  destruct (getitem_str first "start_address") as [start|] eqn:Esa; simpl;
    [| discriminate].
  destruct (getitem_int lj (-1)) as [last|]; simpl; [| discriminate].
  destruct (getitem_str last "end_address") as [stop_|]; simpl;
    [| discriminate].
  unfold truediv. destruct (total =? 0) eqn:Ez; simpl; [discriminate |].
  intros [= <-]. simpl.
  destruct lj as [| | | s | legs | m]; simpl in Ef; try discriminate.
  - exfalso. apply index_list_elem in Ef.
    exact (chars_not_dict _ _ _ _ Ef Esa).
  - exists legs. unfold sum_over in Et, Ett. simpl in *.
    repeat split; try assumption.
    + eapply index_list_0. exact Ef.
    + now apply Z.eqb_neq.
Qed.

(** A sample that is returned has a base duration other than zero: the
    zero case has left by the exception of the division. *)
Lemma sample_base_duration_nonzero response wps td :
  get_route_with_traffic response wps = Ok (Some td) ->
  total_duration td <> 0.
Proof.
  unfold get_route_with_traffic.
  destruct response as [| data]; simpl; [discriminate |].
  destruct (getitem_str data "status") as [st|[]]; simpl; try discriminate.
  destruct (eq_str st "OK"); simpl; [| discriminate].
  destruct (_parse_route_data data wps) as [td'|[]] eqn:Hp; simpl;
    try discriminate.
  intros [= <-]. now destruct (parse_ok_inv _ _ _ Hp) as (? & ? & ? & ? & ? & ? & ? & ?).
Qed.

(** The loop over the legs: one stop per leg, in order, with the leg's own
    duration and distance, and the address of the waypoint of the same
    index or the marker when there is none. *)
Lemma build_stops_spec wps legs : forall i stops,
  build_stops wps i legs = Ok stops ->
  length stops = length legs /\
  forall j s,
    stops !! j = Some s ->
    (exists leg, legs !! j = Some leg /\
                 plain_duration leg = Ok (duration_to_next s) /\
                 leg_distance leg = Ok (distance_to_next s)) /\
    address s = default "Unknown" (wps !! (i + j)%nat).
Proof.
  induction legs as [| leg rest IH]; intros i stops; simpl.
  - intros [= <-]. split; [reflexivity |]. intros j s. now rewrite lookup_nil.
  - destruct (plain_duration leg) as [d|] eqn:Ed; simpl; [| discriminate].
    destruct (leg_distance leg) as [m|] eqn:Em; simpl; [| discriminate].
    destruct (build_stops wps (S i) rest) as [tl|] eqn:Et; simpl;
      [| discriminate].
    intros [= <-]. destruct (IH _ _ Et) as [Hlen Hall].
    split; [simpl; now rewrite Hlen |].
    intros [| j] s; simpl.
    + intros [= <-]. simpl. split; [eauto |].
      rewrite Nat.add_0_r. case_decide as Hi; [reflexivity |].
      now rewrite lookup_ge_None_2 by lia.
    + intros Hs. destruct (Hall j s Hs) as [Hleg Ha]. split; [exact Hleg |].
      now rewrite Nat.add_succ_r.
Qed.

End Parse.

Section Stops.

Lemma removelast_take {A} (l : list A) :
  removelast l = take (length l - 1) l.
Proof.
  rewrite removelast_firstn_len. f_equal. lia.
Qed.

Lemma removelast_lookup {A} (l : list A) (i : nat) (x : A) :
  removelast l !! i = Some x -> l !! i = Some x.
Proof.
  rewrite removelast_take. intros H.
  assert (Hi : (i < length l - 1)%nat).
  { apply lookup_lt_Some in H. rewrite length_take in H. lia. }
  now rewrite lookup_take_lt in H.
Qed.

Lemma removelast_length {A} (l : list A) :
  length (removelast l) = (length l - 1)%nat.
Proof. rewrite removelast_take, length_take. lia. Qed.

End Stops.

(** With two waypoints and a route of two legs, the second waypoint, which
    lies beyond the legs, has no entry at all. *)
Lemma waypoint_beyond_legs_dropped :
  exists td,
    _parse_route_data Scenario.two_legs (Some Scenario.errands) = Ok td /\
    TrafficMonitor.waypoints td
    = [ {| address := "Bakery";
           duration_to_next := JInt 600;
           distance_to_next := JInt 5000 |} ] /\
    ~ Spec.reports_every_waypoint Scenario.errands 2
        (TrafficMonitor.waypoints td).
Proof.
  eexists. split; [vm_compute; reflexivity |]. split; [reflexivity |].
  intros H. destruct (H 1%nat "School" eq_refl) as (s & Hs & _).
  discriminate Hs.
Qed.

(** With two waypoints and a route of four legs, it is the third leg that
    gets the marker. *)
Example leg_beyond_waypoints_unknown :
  _parse_route_data Scenario.four_legs (Some Scenario.errands)
  = Ok Scenario.four_legs_data.
Proof. vm_compute. reflexivity. Qed.

(** C9, amended. For a parsed route with n >= 1 waypoints and k legs, the
    stops are k - 1, one for each leg but the last and in the order of the
    legs: stop i carries the duration and the distance of leg i, the leg
    that ends at waypoint i, with the address of waypoint i when i < n and
    the marker "Unknown" when i >= n; a waypoint beyond the legs (index
    k - 1 or more) has no stop. *)
Theorem stops_follow_legs (data : json) (wps : list string)
    (td : traffic_data) :
  wps <> [] ->
  _parse_route_data data (Some wps) = Ok td ->
  exists legs,
    route_legs data = Ok (JList legs) /\
    length (TrafficMonitor.waypoints td) = (length legs - 1)%nat /\
    (forall i s,
        TrafficMonitor.waypoints td !! i = Some s ->
        (exists leg,
            legs !! i = Some leg /\
            plain_duration leg = Ok (duration_to_next s) /\
            leg_distance leg = Ok (distance_to_next s)) /\
        (forall a, wps !! i = Some a -> address s = a) /\
        ((length wps <= i)%nat -> address s = "Unknown")) /\
    (forall i, (length legs - 1 <= i)%nat ->
               TrafficMonitor.waypoints td !! i = None).
Proof.
  intros Hne Hp.
  destruct (parse_ok_inv _ _ _ Hp)
    as (legs & Hlegs & _ & _ & _ & Hstops & _).
  assert (Ht : truthy (Some wps) = true) by (now destruct wps).
  rewrite Ht in Hstops. simpl in Hstops.
  destruct (build_stops_spec _ _ _ _ Hstops) as [Hlen Hall].
  rewrite removelast_length in Hlen.
  exists legs. split; [exact Hlegs |]. split; [exact Hlen |]. split.
  - intros i s Hs. destruct (Hall i s Hs) as [(leg & Hl & Hd & Hm) Ha].
    simpl in Ha. split; [| split].
    + exists leg. split; [now apply removelast_lookup | now split].
    + intros a Hw. now rewrite Ha, Hw.
    + intros Hi. now rewrite Ha, lookup_ge_None_2.
  - intros i Hi. apply lookup_ge_None_2. lia.
Qed.

Lemma stops_follow_legs_witness :
  Scenario.errands <> [] /\
  _parse_route_data Scenario.four_legs (Some Scenario.errands)
  = Ok Scenario.four_legs_data /\
  exists legs,
    route_legs Scenario.four_legs = Ok (JList legs) /\
    length (TrafficMonitor.waypoints Scenario.four_legs_data)
    = (length legs - 1)%nat /\
    (forall i s,
        TrafficMonitor.waypoints Scenario.four_legs_data !! i = Some s ->
        (exists leg,
            legs !! i = Some leg /\
            plain_duration leg = Ok (duration_to_next s) /\
            leg_distance leg = Ok (distance_to_next s)) /\
        (forall a, Scenario.errands !! i = Some a -> address s = a) /\
        ((length Scenario.errands <= i)%nat -> address s = "Unknown")) /\
    (forall i, (length legs - 1 <= i)%nat ->
               TrafficMonitor.waypoints Scenario.four_legs_data !! i = None).
Proof.
  assert (H1 : Scenario.errands <> []) by discriminate.
  assert (H2 : _parse_route_data Scenario.four_legs (Some Scenario.errands)
               = Ok Scenario.four_legs_data) by (vm_compute; reflexivity).
  split; [exact H1 |]. split; [exact H2 |].
  exact (stops_follow_legs Scenario.four_legs Scenario.errands
           Scenario.four_legs_data H1 H2).
Defined.

(** ** Legs without traffic data *)

Section NoTraffic.

Lemma sum_gen_ok_each f : forall l acc n x,
  sum_gen f l acc = Ok n -> x ∈ l -> exists v, f x = Ok v.
Proof.
  induction l as [| y l IH]; intros acc n x H Hx.
  - now apply elem_of_nil in Hx.
  - simpl in H. destruct (f y) as [v|] eqn:Ey; simpl in H; [| discriminate].
    destruct (as_int v) as [k|]; simpl in H; [| discriminate].
    apply elem_of_cons in Hx as [-> | Hx]; [eauto |].
    eapply IH; eassumption.
Qed.

Lemma sum_gen_ext f g : forall l acc,
  (forall x, x ∈ l -> f x = g x) -> sum_gen f l acc = sum_gen g l acc.
Proof.
  induction l as [| y l IH]; intros acc H; [reflexivity |].
  simpl. rewrite (H y) by apply list_elem_of_here.
  destruct (g y) as [v|]; simpl; [| reflexivity].
  destruct (as_int v) as [k|]; simpl; [| reflexivity].
  apply IH. intros x Hx. apply H. now apply list_elem_of_further.
Qed.

(** A leg that is a dict without the ["duration_in_traffic"] entry counts
    with its plain duration. *)
Lemma leg_without_traffic leg v :
  plain_duration leg = Ok v ->
  has_key leg "duration_in_traffic" = false ->
  traffic_duration leg = plain_duration leg.
Proof.
  unfold plain_duration, traffic_duration. intros Hp Hk.
  destruct (getitem_str leg "duration") as [d|] eqn:Ed; [| discriminate].
  destruct (getitem_str_dict _ _ _ Ed) as (m & -> & Hm).
  simpl in Hk. apply bool_decide_eq_false in Hk.
  destruct (m !! "duration_in_traffic") eqn:E.
  - exfalso. apply Hk. eauto.
  - simpl. now rewrite E.
Qed.

Lemma truediv_same (a : Z) : a <> 0 -> Qred (inject_Z a / inject_Z a) = 1%Q.
Proof.
  intros Ha. change 1%Q with (Qred 1). apply Qred_complete.
  apply Qmult_inv_r. unfold Qeq. simpl. lia.
Qed.

End NoTraffic.

(** C10. In a response that parses, a leg without the
    ["duration_in_traffic"] entry enters the total duration with traffic
    with its plain duration; so when no leg has the entry the two totals
    are equal, the traffic ratio is exactly 1, and the severity is light
    for every threshold above 1.1. *)
Theorem no_traffic_data_is_light (data : json) (wps : option (list string))
    (td : traffic_data) (legs : list json) (threshold : Q) :
  _parse_route_data data wps = Ok td ->
  route_legs data = Ok (JList legs) ->
  (forall leg,
      leg ∈ legs -> has_key leg "duration_in_traffic" = false ->
      traffic_duration leg = plain_duration leg) /\
  sum_gen traffic_duration legs 0 = Ok (total_duration_traffic td) /\
  (Forall (fun leg => has_key leg "duration_in_traffic" = false) legs ->
   total_duration_traffic td = total_duration td /\
   traffic_ratio td = 1%Q /\
   ((11 # 10 < threshold)%Q -> analyze_traffic td threshold = Light)).
Proof.
  intros Hp Hl.
  destruct (parse_ok_inv _ _ _ Hp)
    as (legs' & Hl' & _ & Hplain & Htraffic & _ & Hnz & Hratio).
  rewrite Hl in Hl'. injection Hl' as <-.
  assert (Hleg : forall leg,
             leg ∈ legs -> has_key leg "duration_in_traffic" = false ->
             traffic_duration leg = plain_duration leg).
  { intros leg Hin Hk.
    destruct (sum_gen_ok_each _ _ _ _ _ Hplain Hin) as [v Hv].
    eapply leg_without_traffic; eassumption. }
  split; [exact Hleg |]. split; [exact Htraffic |].
  intros Hall. rewrite Forall_forall in Hall.
  assert (Heq : total_duration_traffic td = total_duration td).
  { rewrite (sum_gen_ext traffic_duration plain_duration) in Htraffic
      by (intros x Hx; apply Hleg; [exact Hx | now apply Hall]).
    congruence. }
  assert (Hone : traffic_ratio td = 1%Q).
  { rewrite Hratio, Heq. now apply truediv_same. }
  split; [exact Heq |]. split; [exact Hone |].
  intros Ht. unfold analyze_traffic. rewrite Hone.
  assert (E1 : Qle_bool threshold 1 = false).
  { apply Qle_bool_false. eapply Qlt_trans; [| exact Ht]. reflexivity. }
  rewrite E1. reflexivity.
Qed.

Lemma no_traffic_data_is_light_witness :
  let legs := [Scenario.plain_leg 600 5000; Scenario.plain_leg 900 7000] in
  _parse_route_data Scenario.two_legs None = Ok Scenario.two_legs_data /\
  route_legs Scenario.two_legs = Ok (JList legs) /\
  (forall leg,
      leg ∈ legs -> has_key leg "duration_in_traffic" = false ->
      traffic_duration leg = plain_duration leg) /\
  sum_gen traffic_duration legs 0
  = Ok (total_duration_traffic Scenario.two_legs_data) /\
  (Forall (fun leg => has_key leg "duration_in_traffic" = false) legs ->
   total_duration_traffic Scenario.two_legs_data
   = total_duration Scenario.two_legs_data /\
   traffic_ratio Scenario.two_legs_data = 1%Q /\
   ((11 # 10 < 13 # 10)%Q ->
    analyze_traffic Scenario.two_legs_data (13 # 10) = Light)).
Proof.
  intros legs.
  assert (H1 : _parse_route_data Scenario.two_legs None
               = Ok Scenario.two_legs_data) by (vm_compute; reflexivity).
  assert (H2 : route_legs Scenario.two_legs = Ok (JList legs))
    by (vm_compute; reflexivity).
  split; [exact H1 |]. split; [exact H2 |].
  exact (no_traffic_data_is_light Scenario.two_legs None
           Scenario.two_legs_data legs (13 # 10) H1 H2).
Defined.

(** * Further properties of the code *)

(** ** The list of stops *)

Section Stops_list.

Import Waypoints TelegramBot.

Lemma with_waypoints_same cfg : with_waypoints cfg (waypoints cfg) = cfg.
Proof. now destruct cfg. Qed.

Lemma list_remove_not_in a ws : a ∉ ws -> list_remove a ws = ws.
Proof.
  induction ws as [| y ws IH]; intros Hn; [reflexivity |].
  simpl. apply not_elem_of_cons in Hn as [Hne Hn].
  case_decide; [congruence |]. now rewrite IH.
Qed.

Lemma list_remove_app_last a ws : a ∉ ws -> list_remove a (ws ++ [a]) = ws.
Proof.
  induction ws as [| y ws IH]; intros Hn; simpl.
  - now case_decide.
  - apply not_elem_of_cons in Hn as [Hne Hn].
    case_decide; [congruence |]. now rewrite IH.
Qed.

Lemma list_remove_filter a ws :
  NoDup ws -> list_remove a ws = filter (fun x => x <> a) ws.
Proof.
  induction 1 as [| y ws Hy Hnd IH]; [reflexivity |].
  simpl. rewrite filter_cons. case_decide as E.
  - subst y. case_decide; [congruence |].
    rewrite <- IH. symmetry. now apply list_remove_not_in.
  - case_decide; [| congruence]. now rewrite IH.
Qed.

Lemma NoDup_snoc (a : string) ws : NoDup ws -> a ∉ ws -> NoDup (ws ++ [a]).
Proof.
  intros Hnd Hn. apply NoDup_app. repeat split;
    [exact Hnd | | apply NoDup_singleton].
  intros x Hx Hx'. apply list_elem_of_singleton in Hx'. now subst.
Qed.

Lemma list_remove_length a ws :
  a ∈ ws -> S (length (list_remove a ws)) = length ws.
Proof.
  induction ws as [| y ws IH]; intros Hin; [now apply elem_of_nil in Hin |].
  simpl. case_decide as E; [reflexivity |].
  apply elem_of_cons in Hin as [-> | Hin]; [congruence |].
  simpl. now rewrite IH.
Qed.

End Stops_list.

(** X1. [add_waypoint] keeps the stops free of duplicates and in their
    order: the old list is a prefix of the new one, the address is in the
    new list, the call answers [False] exactly when the address was there
    already and then changes nothing, and a second call with the same
    address changes nothing. *)
Theorem add_waypoint_keeps_order (cfg : CommuteConfig) (a : string) :
  NoDup (waypoints cfg) ->
  let r := Waypoints.add_waypoint cfg a in
  NoDup (waypoints r.1) /\
  waypoints cfg `prefix_of` waypoints r.1 /\
  a ∈ waypoints r.1 /\
  (r.2 = false <-> a ∈ waypoints cfg) /\
  (r.2 = false -> r.1 = cfg) /\
  Waypoints.add_waypoint r.1 a = (r.1, false).
Proof.
  intros Hnd r. subst r. unfold Waypoints.add_waypoint.
  case_bool_decide as Hin; simpl.
  - repeat split.
    + now apply NoDup_snoc.
    + now exists [a].
    + apply elem_of_app. right. apply list_elem_of_here.
    + discriminate.
    + intros Ha. contradiction.
    + discriminate.
    + case_bool_decide as Hin'; [| reflexivity].
      exfalso. apply Hin'. apply elem_of_app. right. apply list_elem_of_here.
  - repeat split; try done.
    now case_bool_decide.
Qed.

Lemma add_waypoint_keeps_order_witness :
  NoDup (waypoints Scenario.cfg) /\
  let r := Waypoints.add_waypoint Scenario.cfg "Bakery" in
  NoDup (waypoints r.1) /\
  waypoints Scenario.cfg `prefix_of` waypoints r.1 /\
  "Bakery" ∈ waypoints r.1 /\
  (r.2 = false <-> "Bakery" ∈ waypoints Scenario.cfg) /\
  (r.2 = false -> r.1 = Scenario.cfg) /\
  Waypoints.add_waypoint r.1 "Bakery" = (r.1, false).
Proof.
  assert (H : NoDup (waypoints Scenario.cfg)) by apply NoDup_nil_2.
  split; [exact H |].
  exact (add_waypoint_keeps_order Scenario.cfg "Bakery" H).
Defined.

(** X2. On stops without duplicates, [remove_waypoint] answers [True]
    exactly when the address is among them; afterwards the address is not
    among them any more, the other stops are all there in their order, and
    the list is shorter by one when something was removed. *)
Theorem remove_waypoint_removes (cfg : CommuteConfig) (a : string) :
  NoDup (waypoints cfg) ->
  let r := Waypoints.remove_waypoint cfg a in
  (r.2 = true <-> a ∈ waypoints cfg) /\
  (a ∉ waypoints r.1) /\
  waypoints r.1 = filter (fun x => x <> a) (waypoints cfg) /\
  NoDup (waypoints r.1) /\
  (r.2 = true -> S (length (waypoints r.1)) = length (waypoints cfg)) /\
  (r.2 = false -> r.1 = cfg).
Proof.
  intros Hnd r. subst r. unfold Waypoints.remove_waypoint.
  case_bool_decide as Hin; simpl.
  - rewrite (list_remove_filter _ _ Hnd). repeat split; try done.
    + intros Ha. apply list_elem_of_filter in Ha as [Ha _]. congruence.
    + now apply NoDup_filter.
    + intros _. rewrite <- (list_remove_filter _ _ Hnd).
      now apply list_remove_length.
  - repeat split; try done.
    rewrite <- (list_remove_filter _ _ Hnd). symmetry.
    now apply list_remove_not_in.
Qed.

Lemma remove_waypoint_removes_witness :
  let cfg := Waypoints.with_waypoints Scenario.cfg Scenario.errands in
  NoDup (waypoints cfg) /\
  let r := Waypoints.remove_waypoint cfg "Bakery" in
  (r.2 = true <-> "Bakery" ∈ waypoints cfg) /\
  ("Bakery" ∉ waypoints r.1) /\
  waypoints r.1 = filter (fun x => x <> "Bakery") (waypoints cfg) /\
  NoDup (waypoints r.1) /\
  (r.2 = true -> S (length (waypoints r.1)) = length (waypoints cfg)) /\
  (r.2 = false -> r.1 = cfg).
Proof.
  intros cfg.
  assert (H : NoDup (waypoints cfg)).
  { apply (bool_decide_unpack _). vm_compute. exact I. }
  split; [exact H |].
  exact (remove_waypoint_removes cfg "Bakery" H).
Defined.

(** X3. Adding an address that is not among the stops and removing it again
    gives back the configuration as it was. *)
Theorem add_then_remove (cfg : CommuteConfig) (a : string) :
  a ∉ waypoints cfg ->
  Waypoints.remove_waypoint (Waypoints.add_waypoint cfg a).1 a = (cfg, true).
Proof.
  intros Hn. unfold Waypoints.add_waypoint.
  rewrite bool_decide_eq_true_2 by exact Hn. simpl.
  unfold Waypoints.remove_waypoint. simpl.
  rewrite bool_decide_eq_true_2
    by (apply elem_of_app; right; apply list_elem_of_here).
  rewrite list_remove_app_last by exact Hn.
  f_equal. now destruct cfg.
Qed.

Lemma add_then_remove_witness :
  ("Bakery" ∉ waypoints Scenario.cfg) /\
  Waypoints.remove_waypoint
    (Waypoints.add_waypoint Scenario.cfg "Bakery").1 "Bakery"
  = (Scenario.cfg, true).
Proof.
  assert (H : "Bakery" ∉ waypoints Scenario.cfg) by apply not_elem_of_nil.
  split; [exact H |].
  exact (add_then_remove Scenario.cfg "Bakery" H).
Defined.

(** ** The commands of the bot *)

Section Commands.

Import Waypoints TelegramBot.

Lemma with_waypoints_twice cfg ws ws' :
  with_waypoints (with_waypoints cfg ws) ws' = with_waypoints cfg ws'.
Proof. reflexivity. Qed.

(** Each command changes the stops at most, and keeps them distinct. *)
Lemma handle_stops cfg c :
  NoDup (waypoints cfg) ->
  exists ws, (handle cfg c).1 = with_waypoints cfg ws /\ NoDup ws.
Proof.
  intros Hnd.
  assert (Hsame : exists ws, cfg = with_waypoints cfg ws /\ NoDup ws)
    by (exists (waypoints cfg); now rewrite with_waypoints_same).
  destruct c as [args | args | |]; simpl.
  - unfold cmd_add_stop. destruct args as [| w args]; [exact Hsame |].
    unfold add_waypoint. case_bool_decide as Hin; simpl; [| exact Hsame].
    eexists. split; [reflexivity |]. now apply NoDup_snoc.
  - unfold cmd_remove_stop. destruct args as [| w args]; [exact Hsame |].
    unfold remove_waypoint. case_bool_decide as Hin; simpl; [| exact Hsame].
    eexists. split; [reflexivity |].
    rewrite (list_remove_filter _ _ Hnd). now apply NoDup_filter.
  - unfold cmd_list_stops. now destruct (waypoints cfg).
  - exists []. split; [reflexivity | constructor].
Qed.

End Commands.

(** X4. Whatever commands the bot receives and in whatever order, they
    change nothing of the configuration but the stops, the stops stay free
    of duplicates, and every command gets one reply. *)
Theorem session_keeps_stops_distinct (cfg : CommuteConfig)
    (cs : list TelegramBot.command) :
  NoDup (waypoints cfg) ->
  let r := TelegramBot.session cfg cs in
  (exists ws, r.1 = Waypoints.with_waypoints cfg ws /\ NoDup ws) /\
  length r.2 = length cs.
Proof.
  revert cfg. induction cs as [| c cs IH]; intros cfg Hnd; simpl.
  - split; [| reflexivity]. exists (waypoints cfg).
    now rewrite with_waypoints_same.
  - destruct (handle_stops cfg c Hnd) as (ws & Hc & Hws).
    destruct (TelegramBot.handle cfg c) as [cfg' reply]. simpl in Hc. subst cfg'.
    specialize (IH (Waypoints.with_waypoints cfg ws) Hws).
    destruct (TelegramBot.session _ cs) as [final replies]. simpl in *.
    destruct IH as [(ws' & -> & Hws') Hlen].
    split; [| now rewrite Hlen]. now exists ws'.
Qed.

Lemma session_keeps_stops_distinct_witness :
  let cs := [ TelegramBot.Add ["Whole"; "Foods"]; TelegramBot.Add ["Gym"];
              TelegramBot.Add ["Whole"; "Foods"]; TelegramBot.Stops;
              TelegramBot.Remove ["Gym"]; TelegramBot.Clear ] in
  NoDup (waypoints Scenario.cfg) /\
  let r := TelegramBot.session Scenario.cfg cs in
  (exists ws, r.1 = Waypoints.with_waypoints Scenario.cfg ws /\ NoDup ws) /\
  length r.2 = length cs.
Proof.
  intros cs.
  assert (H : NoDup (waypoints Scenario.cfg)) by apply NoDup_nil_2.
  split; [exact H |].
  exact (session_keeps_stops_distinct Scenario.cfg cs H).
Defined.

(** The replies of that conversation. *)
Example conversation :
  (TelegramBot.session Scenario.cfg
     [ TelegramBot.Add ["Whole"; "Foods"]; TelegramBot.Add ["Gym"];
       TelegramBot.Add ["Whole"; "Foods"]; TelegramBot.Stops;
       TelegramBot.Remove ["Gym"]; TelegramBot.Clear ]).2
  = [ "✅ Added stop: *Whole Foods*" +:+ TelegramBot.nl +:+ TelegramBot.nl
        +:+ "You now have 1 stop(s).";
      "✅ Added stop: *Gym*" +:+ TelegramBot.nl +:+ TelegramBot.nl
        +:+ "You now have 2 stop(s).";
      "⚠️ Stop *Whole Foods* already exists!";
      "📍 *Your stops (2):*" +:+ TelegramBot.nl +:+ TelegramBot.nl
        +:+ "1. Whole Foods" +:+ TelegramBot.nl
        +:+ "2. Gym" +:+ TelegramBot.nl;
      "✅ Removed stop: *Gym*";
      "✅ Cleared 1 stop(s)." ].
Proof. vm_compute. reflexivity. Qed.

(** X5. The stops sent with the directions request are the configured
    ones, in their order, and none at all ([None]) when the list is empty;
    the route starts at the work address and ends at the home address. *)
Theorem request_carries_stops (cfg : CommuteConfig) :
  inner_stops (get_full_route cfg)
  = match waypoints cfg with [] => None | ws => Some ws end /\
  head (get_full_route cfg) = Some (work_address cfg) /\
  last (get_full_route cfg) = Some (home_address cfg) /\
  length (get_full_route cfg) = S (S (length (waypoints cfg))).
Proof.
  unfold get_full_route, inner_stops. repeat split.
  - destruct (waypoints cfg) as [| w ws] eqn:E; [reflexivity |].
    simpl length. rewrite length_app. simpl length.
    replace (2 <? S (S (length ws + 1)))%nat with true
      by (symmetry; apply Nat.ltb_lt; lia).
    f_equal. simpl tail.
    change (w :: ws ++ [home_address cfg])
      with ((w :: ws) ++ [home_address cfg]).
    apply removelast_last.
  - rewrite app_assoc. apply last_snoc.
  - simpl. rewrite length_app. simpl. lia.
Qed.

(** ** What leaves the sampling operation *)

Section Escapes.

(** None of the operations on the decoded body raises the one exception
    that [get_route_with_traffic] catches. *)
Local Abbreviation not_caught r := (r <> Raise RequestException).

Lemma not_caught_bind {A B} (r : res A) (k : A -> res B) :
  not_caught r -> (forall a, r = Ok a -> not_caught (k a)) ->
  not_caught (let! x := r in k x).
Proof.
  destruct r as [a | e]; simpl; intros Hr Hk.
  - now apply Hk.
  - congruence.
Qed.

Lemma not_caught_getitem_str v k : not_caught (getitem_str v k).
Proof.
  destruct v; simpl; try discriminate.
  destruct (m !! k); discriminate.
Qed.

Lemma not_caught_index_list {A} (l : list A) i : not_caught (index_list l i).
Proof.
  unfold index_list. destruct (_ && _); [| discriminate].
  destruct (l !! _); discriminate.
Qed.

Lemma not_caught_getitem_int v i : not_caught (getitem_int v i).
Proof.
  destruct v; simpl; try discriminate; apply not_caught_index_list.
Qed.

Lemma not_caught_value v k : not_caught (let! d := getitem_str v k in getitem_str d "value").
Proof.
  apply not_caught_bind; [apply not_caught_getitem_str |].
  intros. apply not_caught_getitem_str.
Qed.

Lemma not_caught_traffic_duration leg : not_caught (traffic_duration leg).
Proof.
  unfold traffic_duration. apply not_caught_bind.
  - destruct leg; simpl; try discriminate.
    destruct (m !! "duration"); discriminate.
  - intros. apply not_caught_getitem_str.
Qed.

Lemma not_caught_sum_gen f :
  (forall x, not_caught (f x)) ->
  forall items acc, not_caught (sum_gen f items acc).
Proof.
  intros Hf. induction items as [| x items IH]; intros acc; simpl;
    [discriminate |].
  apply not_caught_bind; [apply Hf |]. intros v _.
  apply not_caught_bind; [destruct v; discriminate |]. intros n _. apply IH.
Qed.

Lemma not_caught_sum_over legs f :
  (forall x, not_caught (f x)) -> not_caught (sum_over legs f).
Proof.
  intros Hf. unfold sum_over. apply not_caught_bind.
  - destruct legs; discriminate.
  - intros. now apply not_caught_sum_gen.
Qed.

Lemma not_caught_build_stops wps : forall legs i,
  not_caught (build_stops wps i legs).
Proof.
  induction legs as [| leg legs IH]; intros i; simpl; [discriminate |].
  apply not_caught_bind; [apply not_caught_value |]. intros d _.
  apply not_caught_bind; [apply not_caught_value |]. intros m _.
  apply not_caught_bind; [apply IH | discriminate].
Qed.

Lemma not_caught_parse data wps : not_caught (_parse_route_data data wps).
Proof.
  unfold _parse_route_data.
  repeat (apply not_caught_bind;
          [ first [ apply not_caught_getitem_str
                  | apply not_caught_getitem_int
                  | apply not_caught_sum_over; intros;
                    first [ apply not_caught_value
                          | apply not_caught_traffic_duration ]
                  | idtac ]
          | intros ]).
  - destruct (truthy wps); [| discriminate].
    apply not_caught_bind; [destruct a1; discriminate |].
    intros. apply not_caught_build_stops.
  - unfold truediv. destruct (_ =? _); discriminate.
  - discriminate.
Qed.

End Escapes.

(** X6. [get_route_with_traffic] gives [None] exactly for a failed request
    and for a body whose status is there and is not "OK"; it never lets a
    [RequestException] out; and for a body with status "OK" its outcome,
    exception included, is the outcome of [_parse_route_data]. *)
Theorem sampling_outcomes (response : http_outcome)
    (wps : option (list string)) :
  (get_route_with_traffic response wps = Ok None <->
   response = RequestFailed \/
   exists data st,
     response = Body data /\ getitem_str data "status" = Ok st /\
     eq_str st "OK" = false) /\
  get_route_with_traffic response wps <> Raise RequestException /\
  (forall data st,
      response = Body data -> getitem_str data "status" = Ok st ->
      eq_str st "OK" = true ->
      get_route_with_traffic response wps
      = match _parse_route_data data wps with
        | Ok td => Ok (Some td)
        | Raise e => Raise e
        end).
Proof.
  assert (Hok : forall data st,
             getitem_str data "status" = Ok st -> eq_str st "OK" = true ->
             get_route_with_traffic (Body data) wps
             = match _parse_route_data data wps with
               | Ok td => Ok (Some td)
               | Raise e => Raise e
               end).
  { intros data st Hs He. rewrite (ok_status_is_parse wps data st Hs He).
    pose proof (not_caught_parse data wps) as Hn.
    destruct (_parse_route_data data wps) as [td | []]; simpl;
      try reflexivity. congruence. }
  split; [| split].
  - split.
    + destruct response as [| data]; [now left |]. intros H. right.
      destruct (getitem_str data "status") as [st | e] eqn:Hs.
      * destruct (eq_str st "OK") eqn:He; [| now exists data, st].
        rewrite (Hok data st Hs He) in H.
        destruct (_parse_route_data data wps); discriminate.
      * exfalso. unfold get_route_with_traffic in H. rewrite Hs in H.
        pose proof (not_caught_getitem_str data "status") as Hn.
        rewrite Hs in Hn. destruct e; simpl in H; congruence.
    + intros [-> | (data & st & -> & Hs & He)]; [reflexivity |].
      now apply (non_ok_status_is_none wps data st).
  - destruct response as [| data]; [discriminate |].
    destruct (getitem_str data "status") as [st | e] eqn:Hs.
    + destruct (eq_str st "OK") eqn:He.
      * rewrite (Hok data st Hs He).
        pose proof (not_caught_parse data wps) as Hn.
        destruct (_parse_route_data data wps); [discriminate | congruence].
      * now rewrite (non_ok_status_is_none wps data st Hs He).
    + unfold get_route_with_traffic. rewrite Hs.
      pose proof (not_caught_getitem_str data "status") as Hn.
      rewrite Hs in Hn. destruct e; simpl; congruence.
  - intros data st -> Hs He. exact (Hok data st Hs He).
Qed.

(** ** Responses of the documented shape *)

Section Documented.

Import Provider.

Lemma leg_json_plain l : plain_duration (leg_json l) = Ok (JInt (duration l)).
Proof. unfold leg_json. destruct (duration_in_traffic l); reflexivity. Qed.

Lemma leg_json_traffic l :
  traffic_duration (leg_json l) = Ok (JInt (in_traffic l)).
Proof.
  unfold leg_json, in_traffic. destruct (duration_in_traffic l); reflexivity.
Qed.

Lemma leg_json_distance l : leg_distance (leg_json l) = Ok (JInt (distance l)).
Proof. unfold leg_json. destruct (duration_in_traffic l); reflexivity. Qed.

Lemma leg_json_start l :
  getitem_str (leg_json l) "start_address"
  = Ok (JStr (Provider.start_address l)).
Proof. unfold leg_json. destruct (duration_in_traffic l); reflexivity. Qed.

Lemma leg_json_end l :
  getitem_str (leg_json l) "end_address" = Ok (JStr (Provider.end_address l)).
Proof. unfold leg_json. destruct (duration_in_traffic l); reflexivity. Qed.

Lemma sum_gen_legs f g :
  (forall l, f (leg_json l) = Ok (JInt (g l))) ->
  forall ls acc, sum_gen f (leg_json <$> ls) acc = Ok (acc + sum_of g ls).
Proof.
  intros Hf. induction ls as [| l ls IH]; intros acc; simpl.
  - f_equal. lia.
  - rewrite Hf. simpl. rewrite IH. f_equal. unfold sum_of. simpl. lia.
Qed.

Lemma build_stops_legs wps : forall ls i,
  build_stops wps i (leg_json <$> ls) = Ok (stops_of wps i ls).
Proof.
  induction ls as [| l ls IH]; intros i; [reflexivity |].
  simpl. rewrite leg_json_plain, leg_json_distance. simpl. rewrite IH. simpl.
  do 3 f_equal. case_decide as Hi; [reflexivity |].
  now rewrite lookup_ge_None_2 by lia.
Qed.

Lemma removelast_fmap {A B} (f : A -> B) (l : list A) :
  removelast (f <$> l) = f <$> removelast l.
Proof.
  induction l as [| x [| y l] IH]; try reflexivity.
  change (f x :: removelast (f <$> y :: l) = f x :: (f <$> removelast (y :: l))).
  now rewrite IH.
Qed.

Lemma index_list_head {A} (l : list A) (x : A) :
  head l = Some x -> index_list l 0 = Ok x.
Proof. destruct l; [discriminate |]. now intros [= ->]. Qed.

Lemma index_list_last {A} (l : list A) (x : A) :
  last l = Some x -> index_list l (-1) = Ok x.
Proof.
  intros H. unfold index_list. cbv zeta.
  assert (Hl : (0 < length l)%nat).
  { destruct l; [discriminate | simpl; lia]. }
  assert (E : (if -1 <? 0 then -1 + Z.of_nat (length l) else -1)
              = Z.of_nat (length l) - 1)
    by (change (-1 <? 0) with true; lia).
  rewrite E.
  replace ((0 <=? Z.of_nat (length l) - 1)
           && (Z.of_nat (length l) - 1 <? Z.of_nat (length l)))
    with true by (symmetry; apply andb_true_iff; split;
                  [apply Z.leb_le | apply Z.ltb_lt]; lia).
  rewrite last_lookup in H.
  replace (Z.to_nat (Z.of_nat (length l) - 1)) with (pred (length l)) by lia.
  now rewrite H.
Qed.

End Documented.

(** X7. A response of the documented shape with at least one leg and a
    total plain duration other than zero is parsed into a sample: the
    totals are the sums over the legs (a leg without traffic data counting
    with its plain duration), the addresses are the start of the first leg
    and the end of the last, the stops are those of all legs but the last
    when waypoints were given, and the ratio is the quotient of the two
    totals. *)
Theorem documented_response_parses (summ : string) (legs : list Provider.leg)
    (first lst : Provider.leg) (wps : option (list string)) :
  head legs = Some first ->
  last legs = Some lst ->
  Provider.sum_of Provider.duration legs <> 0 ->
  get_route_with_traffic (Body (Provider.ok_response summ legs)) wps
  = Ok (Some
      {| total_duration := Provider.sum_of Provider.duration legs;
         total_duration_traffic := Provider.sum_of Provider.in_traffic legs;
         total_distance := Provider.sum_of Provider.distance legs;
         summary := JStr summ;
         TrafficMonitor.waypoints :=
           if truthy wps
           then Provider.stops_of (default [] wps) 0 (removelast legs)
           else [];
         start_address := JStr (Provider.start_address first);
         end_address := JStr (Provider.end_address lst);
         traffic_ratio :=
           Qred (inject_Z (Provider.sum_of Provider.in_traffic legs)
                 / inject_Z (Provider.sum_of Provider.duration legs)) |}).
Proof.
  intros Hfirst Hlast Hnz.
  rewrite (ok_status_is_parse wps _ (JStr "OK")) by reflexivity.
  unfold _parse_route_data, Provider.ok_response.
  change (getitem_str (JDict _) "routes") with
    (Ok (JList [JDict (<["summary" := JStr summ]>
                       {[ "legs" := JList (Provider.leg_json <$> legs) ]})])).
  cbn [bind getitem_int].
  match goal with
  | |- context [index_list [?x] 0] => change (index_list [x] 0) with (Ok x)
  end.
  cbn [bind].
  change (getitem_str (JDict _) "legs")
    with (Ok (JList (Provider.leg_json <$> legs))).
  change (getitem_str (JDict _) "summary") with (Ok (JStr summ)).
  unfold sum_over. cbn [bind iter slice_init getitem_int].
  rewrite (sum_gen_legs plain_duration Provider.duration leg_json_plain).
  rewrite (sum_gen_legs traffic_duration Provider.in_traffic leg_json_traffic).
  rewrite (sum_gen_legs leg_distance Provider.distance leg_json_distance).
  cbn [bind]. rewrite !Z.add_0_l.
  rewrite removelast_fmap, build_stops_legs.
  rewrite (index_list_head _ (Provider.leg_json first))
    by (destruct legs; [discriminate | injection Hfirst as <-; reflexivity]).
  rewrite (index_list_last _ (Provider.leg_json lst))
    by (rewrite fmap_last, Hlast; reflexivity).
  cbn [bind]. rewrite leg_json_start, leg_json_end. cbn [bind].
  unfold truediv. rewrite (proj2 (Z.eqb_neq _ _) Hnz).
  destruct (truthy wps); reflexivity.
Qed.

Lemma documented_response_parses_witness :
  let legs := [Provider.to_bakery; Provider.to_home] in
  head legs = Some Provider.to_bakery /\
  last legs = Some Provider.to_home /\
  Provider.sum_of Provider.duration legs <> 0 /\
  get_route_with_traffic (Body (Provider.ok_response "A1" legs))
    (Some ["Bakery"])
  = Ok (Some
      {| total_duration := Provider.sum_of Provider.duration legs;
         total_duration_traffic := Provider.sum_of Provider.in_traffic legs;
         total_distance := Provider.sum_of Provider.distance legs;
         summary := JStr "A1";
         TrafficMonitor.waypoints :=
           if truthy (Some ["Bakery"])
           then Provider.stops_of (default [] (Some ["Bakery"])) 0
                  (removelast legs)
           else [];
         start_address := JStr (Provider.start_address Provider.to_bakery);
         end_address := JStr (Provider.end_address Provider.to_home);
         traffic_ratio :=
           Qred (inject_Z (Provider.sum_of Provider.in_traffic legs)
                 / inject_Z (Provider.sum_of Provider.duration legs)) |}).
Proof.
  intros legs.
  assert (H1 : head legs = Some Provider.to_bakery) by reflexivity.
  assert (H2 : last legs = Some Provider.to_home) by reflexivity.
  assert (H3 : Provider.sum_of Provider.duration legs <> 0)
    by (vm_compute; discriminate).
  split; [exact H1 |]. split; [exact H2 |]. split; [exact H3 |].
  exact (documented_response_parses "A1" legs Provider.to_bakery
           Provider.to_home (Some ["Bakery"]) H1 H2 H3).
Defined.



(** ** Clock arithmetic *)

Section Clock.

Lemma us_per_day_eq : us_per_day = 86400000000.
Proof. reflexivity. Qed.
Lemma us_per_hour_eq : us_per_hour = 3600000000.
Proof. reflexivity. Qed.
Lemma us_per_minute_eq : us_per_minute = 60000000.
Proof. reflexivity. Qed.
Lemma us_per_second_eq : us_per_second = 1000000.
Proof. reflexivity. Qed.

End Clock.

Ltac numerals :=
  rewrite ?us_per_day_eq, ?us_per_hour_eq, ?us_per_minute_eq,
    ?us_per_second_eq in *.

Section Instants.

Lemma midnight_multiple t : midnight t = us_per_day * (t / us_per_day).
Proof.
  unfold midnight. pose proof (Z.div_mod t us_per_day) as H.
  numerals. lia.
Qed.

Lemma midnight_bounds t : midnight t <= t < midnight t + us_per_day.
Proof.
  unfold midnight.
  assert (H : 0 <= t mod us_per_day < us_per_day)
    by (apply Z.mod_pos_bound; reflexivity).
  lia.
Qed.

(** The fields of the instant [h]:[m]:00 on day [k]. *)
Lemma fields_of_instant (k h m : Z) :
  0 <= h < 24 -> 0 <= m < 60 ->
  let t := us_per_day * k + h * us_per_hour + m * us_per_minute in
  hour t = h /\ minute t = m /\ second t = 0 /\ microsecond t = 0.
Proof.
  intros Hh Hm t. subst t. unfold hour, minute, second, microsecond.
  numerals.
  set (t := 86400000000 * k + h * 3600000000 + m * 60000000).
  assert (E1 : t mod 86400000000 = h * 3600000000 + m * 60000000).
  { symmetry. apply (Z.mod_unique_pos _ _ k); subst t; lia. }
  assert (E2 : t mod 3600000000 = m * 60000000).
  { symmetry. apply (Z.mod_unique_pos _ _ (24 * k + h)); subst t; lia. }
  assert (E3 : t mod 60000000 = 0).
  { symmetry. apply (Z.mod_unique_pos _ _ (1440 * k + 60 * h + m));
      subst t; lia. }
  assert (E4 : t mod 1000000 = 0).
  { symmetry.
    apply (Z.mod_unique_pos _ _ (86400 * k + 3600 * h + 60 * m));
      subst t; lia. }
  rewrite E1, E2, E3, E4. repeat split.
  - symmetry. apply (Z.div_unique_pos _ _ _ (m * 60000000)); lia.
  - symmetry. apply (Z.div_unique_pos _ _ _ 0); lia.
Qed.

End Instants.



(** X10. With a valid time of day and the two clock readings of the call on
    the same date, the departure returned is the target arrival minus the
    seconds in traffic and the buffer minutes, where the target arrival
    shows the desired hour and minute (seconds and microseconds zero), is
    not before the second reading and is less than a day after it. *)
Theorem target_arrival_is_upcoming (td : traffic_data) (h m b : Z)
    (now1 now2 : datetime) :
  0 <= h < 24 -> 0 <= m < 60 -> midnight now1 = midnight now2 ->
  exists target,
    calculate_departure_time td (h, m) b now1 now2
    = Ok (target - (total_duration_traffic td * us_per_second
                    + b * us_per_minute),
          int_of (inject_Z (total_duration_traffic td) / 60 + inject_Z b)) /\
    hour target = h /\ minute target = m /\
    second target = 0 /\ microsecond target = 0 /\
    now2 <= target < now2 + us_per_day.
Proof.
  intros Hh Hm Hd. unfold calculate_departure_time.
  rewrite replace_ok by assumption. simpl. rewrite timedelta_travel.
  unfold timedelta_days. rewrite Z.mul_1_l.
  pose proof (midnight_bounds now2) as Hb. rewrite <- Hd in Hb.
  pose proof (fields_of_instant (now1 / us_per_day) h m Hh Hm) as F0.
  pose proof (fields_of_instant (now1 / us_per_day + 1) h m Hh Hm) as F1.
  rewrite <- midnight_multiple in F0.
  replace (us_per_day * (now1 / us_per_day + 1))
    with (midnight now1 + us_per_day) in F1
    by (rewrite midnight_multiple; lia).
  simpl in F0, F1.
  destruct (_ <? now2) eqn:E.
  - apply Z.ltb_lt in E. eexists. split; [reflexivity |].
    replace (midnight now1 + h * us_per_hour + m * us_per_minute + us_per_day)
      with (midnight now1 + us_per_day + h * us_per_hour + m * us_per_minute)
      by lia.
    destruct F1 as (-> & -> & -> & ->). repeat split; try reflexivity;
      numerals; lia.
  - apply Z.ltb_ge in E. eexists. split; [reflexivity |].
    destruct F0 as (-> & -> & -> & ->). repeat split; try reflexivity;
      numerals; lia.
Qed.

Lemma target_arrival_is_upcoming_witness :
  0 <= 18 < 24 /\ 0 <= 0 < 60 /\
  midnight (Scenario.at_ 17 0) = midnight (Scenario.at_ 17 1) /\
  exists target,
    calculate_departure_time Scenario.slow_data (18, 0) 10
      (Scenario.at_ 17 0) (Scenario.at_ 17 1)
    = Ok (target - (total_duration_traffic Scenario.slow_data * us_per_second
                    + 10 * us_per_minute),
          int_of (inject_Z (total_duration_traffic Scenario.slow_data) / 60
                  + inject_Z 10)) /\
    hour target = 18 /\ minute target = 0 /\
    second target = 0 /\ microsecond target = 0 /\
    Scenario.at_ 17 1 <= target < Scenario.at_ 17 1 + us_per_day.
Proof.
  assert (H1 : 0 <= 18 < 24) by lia.
  assert (H2 : 0 <= 0 < 60) by lia.
  assert (H3 : midnight (Scenario.at_ 17 0) = midnight (Scenario.at_ 17 1))
    by reflexivity.
  split; [exact H1 |]. split; [exact H2 |]. split; [exact H3 |].
  exact (target_arrival_is_upcoming Scenario.slow_data 18 0 10
           (Scenario.at_ 17 0) (Scenario.at_ 17 1) H1 H2 H3).
Defined.

(** When the date changes between the two readings the target can lie in
    the past: first reading a microsecond before midnight, second one a
    microsecond after, desired arrival at 00:00, half an hour of travel.
    The target is midnight itself, behind the second reading. *)
Example target_behind_across_midnight :
  calculate_departure_time Scenario.free_data (0, 0) 0
    (us_per_day - 1) (us_per_day + 1)
  = Ok (us_per_day - 1800 * us_per_second, 30).
Proof. vm_compute. reflexivity. Qed.

(** X11. The three severities by the ratio: heavy exactly from the
    threshold on, moderate exactly from 1.1 up to the threshold, light
    exactly below both; so with a threshold of 1.1 or less nothing is ever
    moderate. *)
Theorem severity_bands (td : traffic_data) (threshold : Q) :
  (analyze_traffic td threshold = Heavy <->
   (threshold <= traffic_ratio td)%Q) /\
  (analyze_traffic td threshold = Moderate <->
   (moderate_ratio <= traffic_ratio td)%Q /\
   (traffic_ratio td < threshold)%Q) /\
  (analyze_traffic td threshold = Light <->
   (traffic_ratio td < moderate_ratio)%Q /\
   (traffic_ratio td < threshold)%Q) /\
  ((threshold <= moderate_ratio)%Q ->
   analyze_traffic td threshold <> Moderate).
Proof.
  assert (Hno : forall a b : Q, (a <= b)%Q -> (b < a)%Q -> False)
    by (intros a b Hle Hlt; exact (Qlt_not_le _ _ Hlt Hle)).
  unfold analyze_traffic.
  destruct (Qle_bool threshold (traffic_ratio td)) eqn:E1.
  - apply Qle_bool_iff in E1. split; [| split; [| split]].
    + tauto.
    + split; [discriminate | intros [_ H]; destruct (Hno _ _ E1 H)].
    + split; [discriminate | intros [_ H]; destruct (Hno _ _ E1 H)].
    + discriminate.
  - apply Qle_bool_false in E1.
    destruct (Qle_bool moderate_ratio (traffic_ratio td)) eqn:E2.
    + apply Qle_bool_iff in E2. split; [| split; [| split]].
      * split; [discriminate | intros H; destruct (Hno _ _ H E1)].
      * tauto.
      * split; [discriminate | intros [H _]; destruct (Hno _ _ E2 H)].
      * intros Ht _. apply (Hno _ _ E2). eapply Qlt_le_trans; eassumption.
    + apply Qle_bool_false in E2. split; [| split; [| split]].
      * split; [discriminate | intros H; destruct (Hno _ _ H E1)].
      * split; [discriminate | intros [H _]; destruct (Hno _ _ H E2)].
      * tauto.
      * discriminate.
Qed.

(** ** The decision of a tick, branch by branch *)

Section Decision.

Variables (cfg : CommuteConfig) (st : state) (env : reading)
  (td : traffic_data) (ts : status) (tt : string) (t : Q).

Local Abbreviation outcome := (send_by_timing cfg st env td ts tt t).

Lemma timing_late :
  emitted is_late_warning outcome.2 = true <->
  (t < 0)%Q /\ notification_sent_today st = false.
Proof.
  unfold send_by_timing.
  destruct (Qle_bool 0 t) eqn:E0.
  - apply Qle_bool_iff in E0.
    assert (Hn : ~ (t < 0)%Q) by (intros H; exact (Qlt_not_le _ _ H E0)).
    assert (E : Qlt_bool t 0 = false).
    { destruct (Qlt_bool t 0) eqn:E; [| reflexivity].
      apply Qlt_bool_iff in E. contradiction. }
    rewrite E. split_branches; split; intros; try discriminate; tauto.
  - apply Qle_bool_false in E0. simpl.
    assert (E5 : Qlt_bool 5 t = false).
    { destruct (Qlt_bool 5 t) eqn:E; [| reflexivity].
      apply Qlt_bool_iff in E. exfalso.
      apply (Qlt_irrefl 0). eapply Qlt_trans; [| exact E0].
      eapply Qlt_trans; [| exact E]. reflexivity. }
    assert (E30 : Qlt_bool 30 t = false).
    { destruct (Qlt_bool 30 t) eqn:E; [| reflexivity].
      apply Qlt_bool_iff in E. exfalso.
      apply (Qlt_irrefl 0). eapply Qlt_trans; [| exact E0].
      eapply Qlt_trans; [| exact E]. reflexivity. }
    assert (El : Qlt_bool t 0 = true) by now apply Qlt_bool_iff.
    rewrite E5, E30, El, andb_false_r. simpl.
    destruct (notification_sent_today st); simpl; split; intros;
      try discriminate; try tauto. now destruct H.
Qed.

Lemma timing_late_state :
  emitted is_late_warning outcome.2 = true ->
  notification_sent_today outcome.1 = true /\
  last_notification_time outcome.1 = last_notification_time st.
Proof.
  unfold send_by_timing.
  split_branches; intros; try discriminate; split; reflexivity.
Qed.

(** What the new state is, by what was sent. *)
Lemma timing_state :
  last_notification_time outcome.1
  = (if emitted is_departure_alert outcome.2
     then Some (current_time env) else last_notification_time st) /\
  notification_sent_today outcome.1
  = notification_sent_today st || emitted is_departure_or_late outcome.2.
Proof.
  unfold send_by_timing.
  destruct (notification_sent_today st) eqn:Ef; simpl;
    rewrite ?andb_false_r, ?andb_true_r;
    split_branches; rewrite ?Ef; split; reflexivity.
Qed.

Lemma timing_early_iff :
  emitted is_early_warning outcome.2 = true <->
  (heavy_traffic_threshold cfg <= traffic_ratio td)%Q /\
  (5 < t <= 20)%Q /\ notification_sent_today st = false.
Proof.
  split.
  - unfold send_by_timing. split_branches; intros H; try discriminate.
    match goal with
    | E : _ && (_ && _) && negb _ = true |- _ =>
        apply andb_true_iff in E as [E Hf];
        apply andb_true_iff in E as [Hr E];
        apply andb_true_iff in E as [H5 H20]
    end.
    apply Qle_bool_iff in Hr, H20. apply Qlt_bool_iff in H5.
    apply negb_true_iff in Hf. auto.
  - intros (Hr & Ht & Hf). now rewrite timing_early.
Qed.

(** Nothing is sent exactly when none of the three messages is. *)
Lemma timing_none :
  outcome.2 = None <->
  emitted is_departure_alert outcome.2 = false /\
  emitted is_early_warning outcome.2 = false /\
  emitted is_late_warning outcome.2 = false.
Proof.
  destruct outcome.2 as [[[] d] |]; simpl; split; intros; try discriminate;
    try tauto; intuition discriminate.
Qed.

Lemma timing_silent :
  outcome.2 = None <->
  notification_sent_today st = true \/ (20 < t)%Q \/
  ((5 < t)%Q /\ (traffic_ratio td < heavy_traffic_threshold cfg)%Q).
Proof.
  rewrite timing_none, <- !not_true_iff_false.
  rewrite timing_departure, timing_early_iff, timing_late.
  destruct (notification_sent_today st) eqn:Ef.
  - split; [now left |]. intros _. repeat split; intros H;
      decompose [and] H; discriminate.
  - split.
    + intros (Hd & He & Hl). right.
      destruct (Qlt_le_dec t 0) as [Hn | H0]; [exfalso; apply Hl; auto |].
      destruct (Qlt_le_dec 5 t) as [H5 | H5]; [| exfalso; apply Hd; auto].
      destruct (Qlt_le_dec 20 t) as [H20 | H20]; [now left |]. right.
      split; [exact H5 |].
      destruct (Qlt_le_dec (traffic_ratio td) (heavy_traffic_threshold cfg))
        as [Hr | Hr]; [exact Hr |].
      exfalso. apply He. auto.
    + intros [[=] | [H20 | [H5 Hr]]].
      * assert (H5 : (5 < t)%Q)
          by (eapply Qlt_trans; [| exact H20]; reflexivity).
        repeat split.
        -- intros [[_ H] _]. exact (Qlt_not_le _ _ H5 H).
        -- intros (_ & [_ H] & _). exact (Qlt_not_le _ _ H20 H).
        -- intros [H _]. apply (Qlt_irrefl t).
           eapply Qlt_trans; [exact H |].
           eapply Qlt_trans; [| exact H5]. reflexivity.
      * repeat split.
        -- intros [[_ H] _]. exact (Qlt_not_le _ _ H5 H).
        -- intros (H & _ & _). exact (Qlt_not_le _ _ Hr H).
        -- intros [H _]. apply (Qlt_irrefl t).
           eapply Qlt_trans; [exact H |].
           eapply Qlt_trans; [| exact H5]. reflexivity.
Qed.

Lemma timing_silent_state : outcome.2 = None -> outcome.1 = st.
Proof.
  unfold send_by_timing. split_branches; intros; try discriminate; reflexivity.
Qed.

End Decision.

(** A tick that gets a sample and a departure time ends in the chain of
    conditions. *)
Lemma check_decided cfg st env td dep tm :
  get_route_with_traffic (response env) (inner_stops (get_full_route cfg))
  = Ok (Some td) ->
  calculate_departure_time td (desired_arrival_time cfg) (buffer_minutes cfg)
    (calc_now1 env) (calc_now2 env) = Ok (dep, tm) ->
  check_traffic_and_notify cfg st env
  = Ok (send_by_timing cfg st env td
          (analyze_traffic td (heavy_traffic_threshold cfg))
          (_format_duration (total_duration_traffic td))
          (minutes_until dep (current_time env))).
Proof.
  intros Hroute Hcalc. unfold check_traffic_and_notify.
  rewrite Hroute. simpl. rewrite Hcalc. reflexivity.
Qed.

(** X12. On a tick that obtains a sample and a departure time, the
    LateWarning is handed to the transport if and only if the departure
    time is past (negative minutes) and the daily flag is clear; the tick
    that sends it sets the flag and leaves the time of the last
    notification as it was. *)
Theorem late_warning_iff (cfg : CommuteConfig) (st : state) (env : reading)
    (td : traffic_data) (dep : datetime) (tm : Z) :
  get_route_with_traffic (response env) (inner_stops (get_full_route cfg))
  = Ok (Some td) ->
  calculate_departure_time td (desired_arrival_time cfg) (buffer_minutes cfg)
    (calc_now1 env) (calc_now2 env) = Ok (dep, tm) ->
  exists st' em,
    check_traffic_and_notify cfg st env = Ok (st', em) /\
    (emitted is_late_warning em = true <->
     (minutes_until dep (current_time env) < 0)%Q
     /\ notification_sent_today st = false) /\
    (emitted is_late_warning em = true ->
     notification_sent_today st' = true /\
     last_notification_time st' = last_notification_time st).
Proof.
  intros Hroute Hcalc. rewrite (check_decided _ _ _ _ _ _ Hroute Hcalc).
  eexists _, _. split; [f_equal; apply surjective_pairing |]. split.
  - apply timing_late.
  - apply timing_late_state.
Qed.

Lemma late_warning_iff_witness :
  let env := Scenario.tick_at 17 25 Scenario.congested true in
  get_route_with_traffic (response env)
    (inner_stops (get_full_route Scenario.cfg))
  = Ok (Some Scenario.congested_data) /\
  calculate_departure_time Scenario.congested_data
    (desired_arrival_time Scenario.cfg) (buffer_minutes Scenario.cfg)
    (calc_now1 env) (calc_now2 env) = Ok (Scenario.at_ 17 5, 55) /\
  exists st' em,
    check_traffic_and_notify Scenario.cfg Scenario.idle env = Ok (st', em) /\
    (emitted is_late_warning em = true <->
     (minutes_until (Scenario.at_ 17 5) (current_time env) < 0)%Q
     /\ notification_sent_today Scenario.idle = false) /\
    (emitted is_late_warning em = true ->
     notification_sent_today st' = true /\
     last_notification_time st'
     = last_notification_time Scenario.idle).
Proof.
  intros env.
  assert (H1 : get_route_with_traffic (response env)
                 (inner_stops (get_full_route Scenario.cfg))
               = Ok (Some Scenario.congested_data))
    by (vm_compute; reflexivity).
  assert (H2 : calculate_departure_time Scenario.congested_data
                 (desired_arrival_time Scenario.cfg)
                 (buffer_minutes Scenario.cfg)
                 (calc_now1 env) (calc_now2 env)
               = Ok (Scenario.at_ 17 5, 55))
    by (vm_compute; reflexivity).
  split; [exact H1 |]. split; [exact H2 |].
  exact (late_warning_iff Scenario.cfg Scenario.idle env
           Scenario.congested_data (Scenario.at_ 17 5) 55 H1 H2).
Defined.

(** X13. On such a tick the EarlyWarning is handed to the transport if and
    only if the traffic ratio reaches the threshold, the departure is more
    than 5 and at most 20 minutes away, and the daily flag is clear. *)
Theorem early_warning_iff (cfg : CommuteConfig) (st : state) (env : reading)
    (td : traffic_data) (dep : datetime) (tm : Z) :
  get_route_with_traffic (response env) (inner_stops (get_full_route cfg))
  = Ok (Some td) ->
  calculate_departure_time td (desired_arrival_time cfg) (buffer_minutes cfg)
    (calc_now1 env) (calc_now2 env) = Ok (dep, tm) ->
  exists st' em,
    check_traffic_and_notify cfg st env = Ok (st', em) /\
    (emitted is_early_warning em = true <->
     (heavy_traffic_threshold cfg <= traffic_ratio td)%Q /\
     (5 < minutes_until dep (current_time env) <= 20)%Q /\
     notification_sent_today st = false).
Proof.
  intros Hroute Hcalc. rewrite (check_decided _ _ _ _ _ _ Hroute Hcalc).
  eexists _, _. split; [f_equal; apply surjective_pairing |].
  apply timing_early_iff.
Qed.

Lemma early_warning_iff_witness :
  let env := Scenario.tick_at 16 50 Scenario.congested true in
  get_route_with_traffic (response env)
    (inner_stops (get_full_route Scenario.cfg))
  = Ok (Some Scenario.congested_data) /\
  calculate_departure_time Scenario.congested_data
    (desired_arrival_time Scenario.cfg) (buffer_minutes Scenario.cfg)
    (calc_now1 env) (calc_now2 env) = Ok (Scenario.at_ 17 5, 55) /\
  exists st' em,
    check_traffic_and_notify Scenario.cfg Scenario.idle env = Ok (st', em) /\
    (emitted is_early_warning em = true <->
     (heavy_traffic_threshold Scenario.cfg
      <= traffic_ratio Scenario.congested_data)%Q /\
     (5 < minutes_until (Scenario.at_ 17 5) (current_time env) <= 20)%Q /\
     notification_sent_today Scenario.idle = false).
Proof.
  intros env.
  assert (H1 : get_route_with_traffic (response env)
                 (inner_stops (get_full_route Scenario.cfg))
               = Ok (Some Scenario.congested_data))
    by (vm_compute; reflexivity).
  assert (H2 : calculate_departure_time Scenario.congested_data
                 (desired_arrival_time Scenario.cfg)
                 (buffer_minutes Scenario.cfg)
                 (calc_now1 env) (calc_now2 env)
               = Ok (Scenario.at_ 17 5, 55))
    by (vm_compute; reflexivity).
  split; [exact H1 |]. split; [exact H2 |].
  exact (early_warning_iff Scenario.cfg Scenario.idle env
           Scenario.congested_data (Scenario.at_ 17 5) 55 H1 H2).
Defined.

(** X14. On such a tick nothing is sent if and only if the daily flag is
    set, or the departure is more than 20 minutes away, or it is more than
    5 minutes away and the traffic ratio is below the threshold; and a
    tick that sends nothing leaves the state as it was. *)
Theorem silent_tick_iff (cfg : CommuteConfig) (st : state) (env : reading)
    (td : traffic_data) (dep : datetime) (tm : Z) :
  get_route_with_traffic (response env) (inner_stops (get_full_route cfg))
  = Ok (Some td) ->
  calculate_departure_time td (desired_arrival_time cfg) (buffer_minutes cfg)
    (calc_now1 env) (calc_now2 env) = Ok (dep, tm) ->
  exists st' em,
    check_traffic_and_notify cfg st env = Ok (st', em) /\
    (em = None <->
     notification_sent_today st = true \/
     (20 < minutes_until dep (current_time env))%Q \/
     ((5 < minutes_until dep (current_time env))%Q /\
      (traffic_ratio td < heavy_traffic_threshold cfg)%Q)) /\
    (em = None -> st' = st).
Proof.
  intros Hroute Hcalc. rewrite (check_decided _ _ _ _ _ _ Hroute Hcalc).
  eexists _, _. split; [f_equal; apply surjective_pairing |]. split.
  - apply timing_silent.
  - apply timing_silent_state.
Qed.

Lemma silent_tick_iff_witness :
  let env := Scenario.tick_at 16 40 Scenario.congested true in
  get_route_with_traffic (response env)
    (inner_stops (get_full_route Scenario.cfg))
  = Ok (Some Scenario.congested_data) /\
  calculate_departure_time Scenario.congested_data
    (desired_arrival_time Scenario.cfg) (buffer_minutes Scenario.cfg)
    (calc_now1 env) (calc_now2 env) = Ok (Scenario.at_ 17 5, 55) /\
  exists st' em,
    check_traffic_and_notify Scenario.cfg Scenario.idle env = Ok (st', em) /\
    (em = None <->
     notification_sent_today Scenario.idle = true \/
     (20 < minutes_until (Scenario.at_ 17 5) (current_time env))%Q \/
     ((5 < minutes_until (Scenario.at_ 17 5) (current_time env))%Q /\
      (traffic_ratio Scenario.congested_data
       < heavy_traffic_threshold Scenario.cfg)%Q)) /\
    (em = None -> st' = Scenario.idle).
Proof.
  intros env.
  assert (H1 : get_route_with_traffic (response env)
                 (inner_stops (get_full_route Scenario.cfg))
               = Ok (Some Scenario.congested_data))
    by (vm_compute; reflexivity).
  assert (H2 : calculate_departure_time Scenario.congested_data
                 (desired_arrival_time Scenario.cfg)
                 (buffer_minutes Scenario.cfg)
                 (calc_now1 env) (calc_now2 env)
               = Ok (Scenario.at_ 17 5, 55))
    by (vm_compute; reflexivity).
  split; [exact H1 |]. split; [exact H2 |].
  exact (silent_tick_iff Scenario.cfg Scenario.idle env
           Scenario.congested_data (Scenario.at_ 17 5) 55 H1 H2).
Defined.

(** X15. The state a tick leaves is fixed by what it sent: the time of the
    last notification becomes the clock reading of the tick when a
    DepartureAlert was sent and is otherwise kept (a LateWarning does not
    record its time), and the daily flag is set when it was set before or a
    DepartureAlert or LateWarning was sent. *)
Theorem state_after_tick (cfg : CommuteConfig) (st st' : state)
    (env : reading) (em : option emission) :
  check_traffic_and_notify cfg st env = Ok (st', em) ->
  last_notification_time st'
  = (if emitted is_departure_alert em
     then Some (current_time env) else last_notification_time st) /\
  notification_sent_today st'
  = notification_sent_today st || emitted is_departure_or_late em.
Proof.
  intros H. apply check_ok_inv in H as [[-> ->] | (td & ts & tt & t & H)].
  - simpl. now rewrite orb_false_r.
  - pose proof (timing_state cfg st env td ts tt t) as Hs.
    rewrite <- H in Hs. exact Hs.
Qed.

Lemma state_after_tick_witness :
  let env := Scenario.tick_at 17 25 Scenario.congested true in
  let st' := {| last_notification_time := None;
                notification_sent_today := true |} in
  let em := Some {| sent := LateWarning "45 min"; delivered := true |} in
  check_traffic_and_notify Scenario.cfg Scenario.idle env = Ok (st', em) /\
  last_notification_time st'
  = (if emitted is_departure_alert em
     then Some (current_time env)
     else last_notification_time Scenario.idle) /\
  notification_sent_today st'
  = notification_sent_today Scenario.idle
    || emitted is_departure_or_late em.
Proof.
  intros env st' em.
  assert (H : check_traffic_and_notify Scenario.cfg Scenario.idle env
              = Ok (st', em)) by (vm_compute; reflexivity).
  split; [exact H |].
  exact (state_after_tick Scenario.cfg Scenario.idle st' env em H).
Defined.

(** ** Runs of ticks *)

(** X16. Once the daily flag is set, a run of ticks without reset sends
    nothing at all, no EarlyWarning either, and leaves the state as it is
    (unless a tick raises). *)
Theorem silence_after_alert (cfg : CommuteConfig) (st : state)
    (ticks : list tick) :
  notification_sent_today st = true ->
  Forall (fun tk => resets tk = false) ticks ->
  (run cfg st ticks).1 = [] /\
  (forall st', (run cfg st ticks).2 = Ok st' -> st' = st).
Proof.
  intros Hf Hall. induction Hall as [| tk rest Hr _ IH].
  - split; [reflexivity |]. now intros st' [= <-].
  - destruct (step cfg st tk) as [[st1 em] | e] eqn:Hs.
    + destruct (step_flag_set _ _ _ _ _ Hr Hf Hs) as [-> ->].
      rewrite (run_step _ _ _ _ _ _ Hs). simpl.
      destruct IH as [-> IH]. split; [reflexivity | exact IH].
    + rewrite (run_raise _ _ _ _ _ Hs). split; [reflexivity |].
      intros st' [=].
Qed.

Lemma silence_after_alert_witness :
  let st := {| last_notification_time := Some (Scenario.at_ 17 0);
               notification_sent_today := true |} in
  notification_sent_today st = true /\
  Forall (fun tk => resets tk = false) Scenario.nagging /\
  (run Scenario.cfg st Scenario.nagging).1 = [] /\
  (forall st', (run Scenario.cfg st Scenario.nagging).2 = Ok st' -> st' = st).
Proof.
  intros st.
  assert (H : Forall (fun tk => resets tk = false) Scenario.nagging)
    by (repeat constructor).
  split; [reflexivity |]. split; [exact H |].
  exact (silence_after_alert Scenario.cfg st Scenario.nagging eq_refl H).
Defined.

Section Resets.

Variable cfg : CommuteConfig.

(** What a tick sends and what the flag still allows afterwards make one
    message at most. *)
Lemma step_budget st tk st' em :
  step cfg st tk = Ok (st', em) ->
  ((if emitted is_departure_or_late em then 1 else 0)
   + (if notification_sent_today st' then 0 else 1) <= 1)%nat.
Proof.
  intros Hs. destruct (emitted is_departure_or_late em) eqn:He.
  - rewrite (step_sets_flag _ _ _ _ _ Hs He). lia.
  - destruct (notification_sent_today st'); lia.
Qed.

End Resets.

(** X17. Along any run of ticks, the DepartureAlert and LateWarning
    messages together number at most one more than the ticks that reset
    the daily state, and no more than those ticks when the run starts with
    the flag set. *)
Theorem alerts_bounded_by_resets (cfg : CommuteConfig) (st : state)
    (ticks : list tick) :
  (count_departure_or_late (run cfg st ticks).1
   <= (if notification_sent_today st then 0 else 1)
      + length (filter (fun tk => resets tk = true) ticks))%nat.
Proof.
  revert st. induction ticks as [| tk rest IH]; intros st.
  - unfold count_departure_or_late. simpl. lia.
  - destruct (step cfg st tk) as [[st' em] | e] eqn:Hs.
    + rewrite (run_step _ _ _ _ _ _ Hs). simpl fst.
      rewrite count_option_app, filter_cons.
      specialize (IH st'). pose proof (step_budget _ _ _ _ _ Hs) as Hb.
      case_decide as Hr; simpl length.
      * lia.
      * apply not_true_is_false in Hr.
        destruct (notification_sent_today st) eqn:Hf; [| lia].
        destruct (step_flag_set _ _ _ _ _ Hr Hf Hs) as [-> ->].
        rewrite Hf in IH. simpl. lia.
    + rewrite (run_raise _ _ _ _ _ Hs). unfold count_departure_or_late.
      simpl. lia.
Qed.

(** ** The monitoring window *)

Section Window.

(** An instant is its date plus its clock fields. *)
Lemma clock_fields t :
  t = midnight t + hour t * us_per_hour + minute t * us_per_minute
      + second t * us_per_second + microsecond t.
Proof.
  unfold midnight, hour, minute, second, microsecond. numerals.
  pose proof (Z.div_mod (t mod 86400000000) 3600000000) as H1.
  pose proof (Z.div_mod (t mod 3600000000) 60000000) as H3.
  pose proof (Z.div_mod (t mod 60000000) 1000000) as H5.
  rewrite (Z.mod_mod_divide t 86400000000 3600000000) in H1
    by (now exists 24).
  rewrite (Z.mod_mod_divide t 3600000000 60000000) in H3 by (now exists 60).
  rewrite (Z.mod_mod_divide t 60000000 1000000) in H5 by (now exists 60).
  lia.
Qed.

Lemma second_bounds t : 0 <= second t < 60.
Proof.
  unfold second. numerals.
  assert (H : 0 <= t mod 60000000 < 60000000)
    by (apply Z.mod_pos_bound; lia).
  split; [apply Z.div_pos; lia | apply Z.div_lt_upper_bound; lia].
Qed.

Lemma replace_keep_microsecond (t h m : Z) :
  0 <= h < 24 -> 0 <= m < 60 ->
  replace t h m 0 (microsecond t)
  = Ok (midnight t + h * us_per_hour + m * us_per_minute + microsecond t).
Proof.
  intros Hh Hm. unfold replace, in_range.
  assert (Hu : 0 <= microsecond t < us_per_second)
    by (apply Z.mod_pos_bound; reflexivity).
  replace (0 <=? h) with true by (symmetry; apply Z.leb_le; lia).
  replace (h <? 24) with true by (symmetry; apply Z.ltb_lt; lia).
  replace (0 <=? m) with true by (symmetry; apply Z.leb_le; lia).
  replace (m <? 60) with true by (symmetry; apply Z.ltb_lt; lia).
  replace (0 <=? microsecond t) with true by (symmetry; apply Z.leb_le; lia).
  replace (microsecond t <? us_per_second) with true
    by (symmetry; apply Z.ltb_lt; lia).
  simpl. f_equal. lia.
Qed.

Lemma replace_bad_time (t h m s us : Z) :
  ~ (0 <= h < 24 /\ 0 <= m < 60) -> replace t h m s us = Raise ValueError.
Proof.
  intros Hn. unfold replace, in_range.
  destruct (0 <=? h) eqn:E1, (h <? 24) eqn:E2, (0 <=? m) eqn:E3,
    (m <? 60) eqn:E4; simpl; try reflexivity.
  exfalso. apply Hn. rewrite Z.leb_le, Z.ltb_lt in *. lia.
Qed.

End Window.

(** X18. With valid configured times, the five-minute job runs the check
    exactly when the wall clock, in whole seconds since midnight, lies
    between the check time and thirty minutes past the desired arrival
    time, both ends included; outside it only applies the midnight reset
    and sends nothing. *)
Theorem admission_window (cfg : CommuteConfig) (now : datetime)
    (ch cm ah am : Z) :
  check_time cfg = (ch, cm) -> desired_arrival_time cfg = (ah, am) ->
  0 <= ch < 24 -> 0 <= cm < 60 -> 0 <= ah < 24 -> 0 <= am < 60 ->
  let sod := hour now * 3600 + minute now * 60 + second now in
  exists inside,
    in_window cfg now = Ok inside /\
    (inside = true <->
     ch * 3600 + cm * 60 <= sod <= ah * 3600 + am * 60 + 1800) /\
    (forall st env,
        _check_if_in_monitoring_window cfg st now env
        = if inside
          then check_traffic_and_notify cfg (midnight_reset st now) env
          else Ok (midnight_reset st now, None)).
Proof.
  intros Hc Ha Hch Hcm Hah Ham sod.
  assert (Hw : in_window cfg now
               = Ok ((midnight now + ch * us_per_hour + cm * us_per_minute
                      + microsecond now <=? now)
                     && (now <=? midnight now + ah * us_per_hour
                                 + am * us_per_minute + microsecond now
                                 + 30 * us_per_minute))).
  { unfold in_window. rewrite Hc, Ha.
    now rewrite !replace_keep_microsecond by assumption. }
  eexists. split; [exact Hw |]. split.
  - rewrite andb_true_iff, Z.leb_le, Z.leb_le.
    pose proof (clock_fields now) as Hn. subst sod. numerals. lia.
  - intros st env. unfold _check_if_in_monitoring_window. now rewrite Hw.
Qed.

Lemma admission_window_witness :
  check_time Scenario.cfg = (16, 30) /\
  desired_arrival_time Scenario.cfg = (18, 0) /\
  0 <= 16 < 24 /\ 0 <= 30 < 60 /\ 0 <= 18 < 24 /\ 0 <= 0 < 60 /\
  let now := Scenario.at_ 18 31 in
  let sod := hour now * 3600 + minute now * 60 + second now in
  exists inside,
    in_window Scenario.cfg now = Ok inside /\
    (inside = true <->
     16 * 3600 + 30 * 60 <= sod <= 18 * 3600 + 0 * 60 + 1800) /\
    (forall st env,
        _check_if_in_monitoring_window Scenario.cfg st now env
        = if inside
          then check_traffic_and_notify Scenario.cfg (midnight_reset st now) env
          else Ok (midnight_reset st now, None)).
Proof.
  assert (H1 : check_time Scenario.cfg = (16, 30)) by reflexivity.
  assert (H2 : desired_arrival_time Scenario.cfg = (18, 0)) by reflexivity.
  assert (H3 : 0 <= 16 < 24) by lia.
  assert (H4 : 0 <= 30 < 60) by lia.
  assert (H5 : 0 <= 18 < 24) by lia.
  assert (H6 : 0 <= 0 < 60) by lia.
  repeat (split; [assumption |]).
  exact (admission_window Scenario.cfg (Scenario.at_ 18 31) 16 30 18 0
           H1 H2 H3 H4 H5 H6).
Defined.

(** X19. With a configured check time or desired arrival time whose hour or
    minute is out of range, every tick of the five-minute job raises
    [ValueError] before any request is made, and the run ends there. *)
Theorem invalid_times_stop_the_job (cfg : CommuteConfig) (ch cm ah am : Z)
    (st : state) (now : datetime) (env : reading) (rest : list tick) :
  check_time cfg = (ch, cm) -> desired_arrival_time cfg = (ah, am) ->
  ~ (0 <= ch < 24 /\ 0 <= cm < 60 /\ 0 <= ah < 24 /\ 0 <= am < 60) ->
  _check_if_in_monitoring_window cfg st now env = Raise ValueError /\
  run cfg st (Poll now env :: rest) = ([], Raise ValueError).
Proof.
  intros Hc Ha Hbad.
  assert (Hw : in_window cfg now = Raise ValueError).
  { unfold in_window. rewrite Hc, Ha.
    destruct (decide (0 <= ch < 24 /\ 0 <= cm < 60)) as [[Hh Hm] | Hn].
    - rewrite replace_keep_microsecond by assumption. simpl.
      rewrite replace_bad_time; [reflexivity |]. intros [Hh' Hm'].
      apply Hbad. repeat split; lia.
    - now rewrite replace_bad_time. }
  assert (Hs : _check_if_in_monitoring_window cfg st now env
               = Raise ValueError).
  { unfold _check_if_in_monitoring_window. now rewrite Hw. }
  split; [exact Hs |]. apply run_raise. exact Hs.
Qed.

Lemma invalid_times_stop_the_job_witness :
  let cfg := {| work_address := "Work"; home_address := "Home";
                check_time := (25, 0); desired_arrival_time := (18, 0);
                buffer_minutes := 10; heavy_traffic_threshold := 13 # 10;
                Config.waypoints := [] |} in
  let env := Scenario.tick_at 17 0 Scenario.congested true in
  check_time cfg = (25, 0) /\ desired_arrival_time cfg = (18, 0) /\
  ~ (0 <= 25 < 24 /\ 0 <= 0 < 60 /\ 0 <= 18 < 24 /\ 0 <= 0 < 60) /\
  _check_if_in_monitoring_window cfg Scenario.idle (Scenario.at_ 17 0) env
  = Raise ValueError /\
  run cfg Scenario.idle [Poll (Scenario.at_ 17 0) env]
  = ([], Raise ValueError).
Proof.
  intros cfg env.
  assert (H1 : check_time cfg = (25, 0)) by reflexivity.
  assert (H2 : desired_arrival_time cfg = (18, 0)) by reflexivity.
  assert (H3 : ~ (0 <= 25 < 24 /\ 0 <= 0 < 60 /\ 0 <= 18 < 24 /\ 0 <= 0 < 60))
    by lia.
  split; [exact H1 |]. split; [exact H2 |]. split; [exact H3 |].
  exact (invalid_times_stop_the_job cfg 25 0 18 0 Scenario.idle
           (Scenario.at_ 17 0) env [] H1 H2 H3).
Defined.

(** X20. A tick whose request fails, or whose response has a status other
    than "OK", sends nothing and leaves the state as it was, whatever the
    clock and the configuration: the departure calculation is not reached,
    so not even an invalid arrival time raises. *)
Theorem failed_sample_is_noop (cfg : CommuteConfig) (st : state)
    (env : reading) :
  response env = RequestFailed \/
  (exists data s,
      response env = Body data /\ getitem_str data "status" = Ok s /\
      eq_str s "OK" = false) ->
  check_traffic_and_notify cfg st env = Ok (st, None).
Proof.
  intros H. unfold check_traffic_and_notify.
  assert (Hn : get_route_with_traffic (response env)
                 (inner_stops (get_full_route cfg)) = Ok None).
  { destruct H as [-> | (data & s & -> & Hs & He)].
    - apply request_failure_is_none.
    - now apply (non_ok_status_is_none _ data s). }
  now rewrite Hn.
Qed.

Lemma failed_sample_is_noop_witness :
  let env := Scenario.tick_at 17 0 Scenario.denied true in
  (response env = RequestFailed \/
   (exists data s,
       response env = Body data /\ getitem_str data "status" = Ok s /\
       eq_str s "OK" = false)) /\
  check_traffic_and_notify Scenario.cfg Scenario.idle env
  = Ok (Scenario.idle, None).
Proof.
  intros env.
  assert (H : response env = RequestFailed \/
              (exists data s,
                  response env = Body data /\
                  getitem_str data "status" = Ok s /\
                  eq_str s "OK" = false)).
  { right. exists Scenario.denied, (JStr "REQUEST_DENIED").
    repeat split; reflexivity. }
  split; [exact H |].
  exact (failed_sample_is_noop Scenario.cfg Scenario.idle env H).
Defined.

(** X21. A tick of the five-minute job at hour 0 and a minute below 5
    clears the daily flag before anything else: after it the flag is set
    only if this very tick sent a DepartureAlert or LateWarning; the time
    of the last notification is not cleared by the reset. *)
Theorem reset_rearms (cfg : CommuteConfig) (st st' : state)
    (now : datetime) (env : reading) (em : option emission) :
  hour now = 0 -> minute now < 5 ->
  step cfg st (Poll now env) = Ok (st', em) ->
  notification_sent_today st' = emitted is_departure_or_late em /\
  last_notification_time st'
  = (if emitted is_departure_alert em
     then Some (current_time env) else last_notification_time st).
Proof.
  intros Hh Hm. simpl. unfold _check_if_in_monitoring_window, midnight_reset.
  replace ((hour now =? 0) && (minute now <? 5)) with true
    by (symmetry; apply andb_true_iff; split;
        [apply Z.eqb_eq | apply Z.ltb_lt]; assumption).
  destruct (in_window cfg now) as [[|] | e]; simpl; [| | discriminate].
  - intros H.
    apply check_ok_inv in H as [[-> ->] | (td & ts & tt & t & H)];
      [split; reflexivity |].
    match type of H with
    | _ = send_by_timing ?c ?s ?e ?d ?a ?b ?q =>
        pose proof (timing_state c s e d a b q) as [Hl Hf]
    end.
    rewrite <- H in Hl, Hf. simpl in Hl, Hf. now split.
  - intros [= <- <-]. split; reflexivity.
Qed.

Lemma reset_rearms_witness :
  let st := {| last_notification_time := Some (Scenario.at_ 17 0);
               notification_sent_today := true |} in
  let st' := {| last_notification_time := Some (Scenario.at_ 17 0);
                notification_sent_today := false |} in
  let now := Scenario.at_ 0 2 in
  let env := Scenario.tick_at 0 2 Scenario.congested true in
  hour now = 0 /\ minute now < 5 /\
  step Scenario.cfg st (Poll now env) = Ok (st', None) /\
  notification_sent_today st' = emitted is_departure_or_late None /\
  last_notification_time st'
  = (if emitted is_departure_alert None
     then Some (current_time env) else last_notification_time st).
Proof.
  intros st st' now env.
  assert (H1 : hour now = 0) by reflexivity.
  assert (H2 : minute now < 5) by (vm_compute; reflexivity).
  assert (H3 : step Scenario.cfg st (Poll now env) = Ok (st', None))
    by (vm_compute; reflexivity).
  split; [exact H1 |]. split; [exact H2 |]. split; [exact H3 |].
  exact (reset_rearms Scenario.cfg st st' now env None H1 H2 H3).
Defined.
